(** * chicken-count: the detection pipeline of the two command-line detectors

    A shallow embedding of [chicken-count.js] (COCO-SSD, bounding boxes) and
    [chicken-count-teachable.js] (Teachable Machine, classification; the
    repository carries it twice, with German and with English labels).

    JavaScript numbers are IEEE-754 binary64 values, modelled by Rocq's
    primitive [float]; a [Float32Array] store rounds to binary32.  Jimp
    images are mutable objects held by reference, modelled by a store of
    bitmaps.  Exceptions are an error result; [try]/[catch] is a match. *)

From Stdlib Require Import Floats ZArith Lia Ascii String DecimalString.
From Stdlib.Strings Require Import Byte.
From stdpp Require Import base option list strings gmap.

Set Warnings "-inexact-float".
Local Open Scope string_scope.
Local Open Scope list_scope.
Local Open Scope nat_scope.

(* ===================================================================== *)
(** * Part I: the program, and the notions its properties are stated with *)
(* ===================================================================== *)

(** ** The JavaScript runtime, as far as the sources use it *)
Module JS.

(** What a [throw] carries. *)
Inductive exn :=
| ModelNotLoaded                      (* new Error('Model not loaded. ...') *)
| ImageFileNotFound (path : string)   (* new Error(`Image file not found: ...`) *)
| LibraryError (msg : string)         (* thrown by jimp, tfjs or fs *)
| ReduceOfEmptyArray.                 (* TypeError of Array.prototype.reduce *)

(** [a > b] on numbers; false as soon as one side is NaN. *)
Definition gt (a b : float) : bool := PrimFloat.ltb b a.

(** Math.fround: round a binary64 to the nearest binary32 (ties to even),
    the conversion every store into a [Float32Array] performs. *)
Definition fround (x : float) : float :=
  match Prim2SF x with
  | S754_finite s m e => SF2Prim (binary_round 24 128 s m e)
  | _ => x
  end.

(** An element of a [Buffer] read as a number. *)
Definition of_byte (b : byte) : float :=
  PrimFloat.of_uint63 (Uint63.of_Z (Z.of_N (Byte.to_N b))).

(** [buf[i] / 255]: an index outside the buffer reads [undefined], and
    [undefined / 255] is NaN. *)
Definition div255 (o : option byte) : float :=
  match o with
  | Some b => PrimFloat.div (of_byte b) 255%float
  | None => PrimFloat.nan
  end.

(** [new Float32Array(n)] and [arr[i] = v]: zero-filled, fixed length, a
    store outside the array is dropped. *)
Definition Float32Array (n : nat) : list float := replicate n 0%float.
Definition f32_store (arr : list float) (i : nat) (v : float) : list float :=
  <[i := fround v]> arr.

(** [Array.prototype.filter]: visit left to right, push the kept ones. *)
Definition filter {A} (p : A → bool) (l : list A) : list A :=
  foldl (λ kept x, if p x then kept ++ [x] else kept) [] l.

(** [Array.prototype.reduce] without an initial value: the first element
    starts the accumulator; on an empty array it throws. *)
Definition reduce {A} (f : A → A → A) (l : list A) : exn + A :=
  match l with
  | [] => inl ReduceOfEmptyArray
  | x :: rest => inr (foldl f x rest)
  end.

(** [`${i}`] for an array index. *)
Definition show_nat (i : nat) : string :=
  NilZero.string_of_uint (Nat.to_uint i).

(** [s || d] where [s] is a string or [undefined]: the empty string and
    [undefined] are falsy. *)
Definition or_else (s : option string) (d : string) : string :=
  match s with
  | Some EmptyString | None => d
  | Some x => x
  end.

End JS.

(** ** Regular expressions, as far as [main] uses them *)
Module RegExp.

Inductive re :=
| Char (c : ascii)
| Cat (r s : re)
| Or (r s : re)
| Opt (r : re)
| End.

(** Canonicalize of the [i] flag (no [u] flag): the upper-case of the
    character, which on ASCII maps [a-z] to [A-Z]; no character outside
    ASCII is identified with an ASCII one. *)
Definition canonicalize (c : ascii) : ascii :=
  let n := nat_of_ascii c in
  if (97 <=? n)%nat && (n <=? 122)%nat then ascii_of_nat (n - 32) else c.

Definition char_matches (ignoreCase : bool) (c a : ascii) : bool :=
  if ignoreCase then Ascii.eqb (canonicalize a) (canonicalize c)
  else Ascii.eqb a c.

(** Backtracking matcher: every way [r] matches a prefix of [s], as the
    list of what is left of [s], in priority order. *)
Fixpoint run (ignoreCase : bool) (r : re) (s : string) : list string :=
  match r with
  | Char c =>
      match s with
      | String a s' => if char_matches ignoreCase c a then [s'] else []
      | EmptyString => []
      end
  | Cat r1 r2 => run ignoreCase r1 s ≫= run ignoreCase r2
  | Or r1 r2 => run ignoreCase r1 s ++ run ignoreCase r2 s
  | Opt r1 => run ignoreCase r1 s ++ [s]
  | End => match s with EmptyString => [s] | _ => [] end
  end.

Definition matches_at (ignoreCase : bool) (r : re) (s : string) : bool :=
  match run ignoreCase r s with [] => false | _ => true end.

(** [r.test(s)]: try every start position, left to right. *)
Fixpoint test (ignoreCase : bool) (r : re) (s : string) : bool :=
  matches_at ignoreCase r s ||
  match s with
  | String _ s' => test ignoreCase r s'
  | EmptyString => false
  end.

Fixpoint lit (s : string) : re → re :=
  match s with
  | EmptyString => λ k, k
  | String c s' => λ k, Cat (Char c) (lit s' k)
  end.

End RegExp.

(** ** Jimp images *)
Module Jimp.

(** [image.bitmap]: RGBA, four bytes a pixel, rows top to bottom. *)
Record bitmap := Bitmap {
  width : nat;
  height : nat;
  data : list byte
}.

(** Image objects live in a store and are handled by reference. *)
Abbreviation ref := nat.
Abbreviation store := (gmap ref bitmap).

(** Computations that read and update the store and may throw. *)
Definition M (A : Type) : Type := store → JS.exn + (A * store).

Definition ret {A} (a : A) : M A := λ σ, inr (a, σ).
Definition throw {A} (e : JS.exn) : M A := λ _, inl e.
Definition bind {A B} (m : M A) (k : A → M B) : M B :=
  λ σ, match m σ with
       | inl e => inl e
       | inr (a, σ') => k a σ'
       end.
Definition lift {A} (r : JS.exn + A) : M A :=
  λ σ, match r with inl e => inl e | inr a => inr (a, σ) end.

(** A call runs on its own images: none outlives it. *)
Definition exec {A} (m : M A) : JS.exn + A :=
  match m ∅ with
  | inl e => inl e
  | inr (a, _) => inr a
  end.

(** [new Jimp(...)]: a fresh object. *)
Definition alloc (b : bitmap) : M ref :=
  λ σ, let r := fresh (dom σ) in inr (r, <[r := b]> σ).

(** [image.bitmap] *)
Definition get_bitmap (r : ref) : M bitmap :=
  λ σ, match σ !! r with
       | Some b => inr (b, σ)
       | None => inl (JS.LibraryError "no such image")
       end.

(** The bitmap [image.resize(w, h)] produces: [w] by [h], a new buffer of
    [w*h*4] bytes; [kernel] is the interpolation, giving the byte at each
    position of the new buffer. *)
Definition resample (kernel : bitmap → nat → nat → nat → byte)
    (b : bitmap) (w h : nat) : bitmap :=
  Bitmap w h (kernel b w h <$> seq 0 (w * h * 4)).

(** [image.resize(w, h)]: replaces the bitmap of the receiver and returns
    the receiver ([return this]). *)
Definition resize (kernel : bitmap → nat → nat → nat → byte)
    (r : ref) (w h : nat) : M ref :=
  bind (get_bitmap r) (λ b σ, inr (r, <[r := resample kernel b w h]> σ)).

(** [image.scan(0, 0, w, h, f)]: rows top to bottom, each row left to
    right, [f] called with [idx = (bitmap.width * y + x) << 2]. *)
Definition scan {S} (bitmap_width w h : nat)
    (f : nat → nat → nat → S → S) (s : S) : S :=
  foldl (λ s y,
    foldl (λ s x, f x y ((bitmap_width * y + x) * 4)%nat s) s (seq 0 w))
    s (seq 0 h).

End Jimp.

Notation "'let*' x ':=' m 'in' k" := (Jimp.bind m (λ x, k))
  (at level 10, x name, m at level 100, k at level 200, only parsing).

(** ** What both detectors share *)
Module Pipeline.

(** The world outside the program. *)
Record World := {
  existsSync : string → bool;                    (* fs.existsSync *)
  read : string → JS.exn + Jimp.bitmap;          (* Jimp.read: decode a file *)
  kernel : Jimp.bitmap → nat → nat → nat → byte; (* jimp's interpolation *)
  lstatSync : string → JS.exn + bool;            (* stats.isDirectory() *)
  readdirSync : string → JS.exn + list string;   (* fs.readdirSync *)
  join : string → string → string                (* path.join *)
}.

(** A tensor: its values and its shape. *)
Record tensor := Tensor { values : list float; shape : list nat }.

Definition Jimp_read (W : World) (path : string) : Jimp.M Jimp.ref :=
  let* b := Jimp.lift (read W path) in Jimp.alloc b.

(** The callback both scripts pass to [scan]:
<<
    imageArray[pixelIndex++] = bitmap.data[idx + 0] / 255;   // R
    imageArray[pixelIndex++] = bitmap.data[idx + 1] / 255;   // G
    imageArray[pixelIndex++] = bitmap.data[idx + 2] / 255;   // B
>> *)
Definition put_rgb (data : list byte) (_ _ idx : nat)
    (st : list float * nat) : list float * nat :=
  let '(imageArray, pixelIndex) := st in
  let imageArray := JS.f32_store imageArray pixelIndex (JS.div255 (data !! (idx + 0)%nat)) in
  let pixelIndex := S pixelIndex in
  let imageArray := JS.f32_store imageArray pixelIndex (JS.div255 (data !! (idx + 1)%nat)) in
  let pixelIndex := S pixelIndex in
  let imageArray := JS.f32_store imageArray pixelIndex (JS.div255 (data !! (idx + 2)%nat)) in
  let pixelIndex := S pixelIndex in
  (imageArray, pixelIndex).

(** [new Float32Array(width * height * 3)], then the scan. *)
Definition imageArray (b : Jimp.bitmap) : list float :=
  let width := Jimp.width b in
  let height := Jimp.height b in
  fst (Jimp.scan (Jimp.width b) width height (put_rgb (Jimp.data b))
         (JS.Float32Array (width * height * 3), 0%nat)).

(** The image file filter of [main]: [/\.(jpe?g|png|bmp|gif)$/i]. *)
Definition image_re : RegExp.re :=
  RegExp.Cat (RegExp.Char ".")
    (RegExp.Cat
       (RegExp.Or (RegExp.lit "jp" (RegExp.Cat (RegExp.Opt (RegExp.Char "e")) (RegExp.Char "g")))
          (RegExp.Or (RegExp.lit "pn" (RegExp.Char "g"))
             (RegExp.Or (RegExp.lit "bm" (RegExp.Char "p"))
                        (RegExp.lit "gi" (RegExp.Char "f")))))
       RegExp.End).

Definition is_image_file (file : string) : bool :=
  RegExp.test true image_re file.

(** What the scripts print, line by line (the per-image report of
    [displayResults] is one entry). *)
Inductive line {R : Type} :=
| Usage
| ErrorAccessingPath (e : JS.exn)
| NoImageFilesFound
| Processing (n : nat)
| Displayed (imagePath : string) (results : R)
| ErrorProcessingImage (e : JS.exn)
| BatchSummary (processed totalChickens : nat)
| Found (results : R)
| NoneDetected
| TopLevelError (e : JS.exn).
Arguments line : clear implicits.

End Pipeline.

(** ** chicken-count.js: COCO-SSD, bounding boxes *)
Module Coco.
Import Pipeline.

(** One detection, as [model.detect] returns it. *)
Record detection := Detection {
  class : string;
  score : float;
  bbox : list float
}.

Record results := Results {
  totalDetections : nat;
  birdDetections : nat;
  allPredictions : list detection;
  birdPredictions : list detection;
  imageSize : nat * nat
}.

(** [this.model] is [null] until [loadModel] has run. *)
Record ChickenDetector := {
  model : option (tensor → JS.exn + list detection)
}.

(** [prediction.class === 'bird' && prediction.score > 0.5] *)
Definition is_bird (prediction : detection) : bool :=
  String.eqb (class prediction) "bird" && JS.gt (score prediction) 0.5%float.

Definition interpret (predictions : list detection) (width height : nat)
    : results :=
  let birdPredictions := JS.filter is_bird predictions in
  {| totalDetections := length predictions;
     birdDetections := length birdPredictions;
     allPredictions := predictions;
     birdPredictions := birdPredictions;
     imageSize := (width, height) |}.

Section Run.
Context (W : World) (this : ChickenDetector).

Definition detectChickens_body (imagePath : string) : Jimp.M results :=
  match model this with
  | None => Jimp.throw JS.ModelNotLoaded
  | Some detect =>
      if negb (existsSync W imagePath)
      then Jimp.throw (JS.ImageFileNotFound imagePath)
      else
        let* image := Jimp_read W imagePath in
        let* bitmap := Jimp.get_bitmap image in
        let width := Jimp.width bitmap in
        let height := Jimp.height bitmap in
        let tensor := Tensor (imageArray bitmap) [height; width; 3%nat] in
        let* predictions := Jimp.lift (detect tensor) in
        Jimp.ret (interpret predictions width height)
  end.

Definition detectChickens (imagePath : string) : JS.exn + results :=
  Jimp.exec (detectChickens_body imagePath).

(** [try { ... return results } catch (error) { ... return null }] *)
Definition processImage (imagePath : string)
    : list (line results) * option results :=
  match detectChickens imagePath with
  | inr results => ([Displayed imagePath results], Some results)
  | inl error => ([ErrorProcessingImage error], None)
  end.

(** One turn of the [for ... of] loop; the state is the console so far,
    [results] and [totalChickens]. *)
Definition batch_step
    (st : list (line results) * list (string * results) * nat)
    (imagePath : string) :=
  let '(out, results, totalChickens) := st in
  let '(printed, result) := processImage imagePath in
  match result with
  | Some result =>
      (out ++ printed, results ++ [(imagePath, result)],
       totalChickens + birdDetections result)%nat
  | None => (out ++ printed, results, totalChickens)
  end.

Definition processMultipleImages (imagePaths : list string)
    : list (line results) * list (string * results) :=
  let '(out, results, totalChickens) :=
    foldl batch_step ([Processing (length imagePaths)], [], 0%nat) imagePaths in
  (out ++ [BatchSummary (length results) totalChickens], results).

(** [files] of [main], from the directory listing. *)
Definition image_files (imagePath : string) (entries : list string)
    : list string :=
  join W imagePath <$> JS.filter is_image_file entries.

End Run.

(** [main]: [loaded] is the outcome of [loadModel], [argv2] is
    [process.argv[2]]. *)
Definition main (W : World)
    (loaded : JS.exn + (tensor → JS.exn + list detection))
    (argv2 : option string) : list (line results) :=
  match loaded with
  | inl error => [TopLevelError error]
  | inr m =>
      let detector := {| model := Some m |} in
      match argv2 with
      | None | Some EmptyString => [Usage]
      | Some imagePath =>
          match lstatSync W imagePath with
          | inl error => [ErrorAccessingPath error]
          | inr true =>
              match readdirSync W imagePath with
              | inl error => [TopLevelError error]
              | inr entries =>
                  let files := image_files W imagePath entries in
                  if decide (length files = 0%nat) then [NoImageFilesFound]
                  else fst (processMultipleImages W detector files)
              end
          | inr false =>
              let '(printed, results) := processImage W detector imagePath in
              printed ++
              match results with
              | Some r =>
                  if (0 <? birdDetections r)%nat then [Found r] else [NoneDetected]
              | None => []
              end
          end
      end
  end.

End Coco.

(** ** chicken-count-teachable.js: Teachable Machine, classification *)
Module Teachable.
Import Pipeline.

Module Prediction.
Record t := Make { class : string; confidence : float }.
End Prediction.
Abbreviation prediction := Prediction.t.

Record results := Results {
  predictions : list prediction;
  bestPrediction : prediction;
  isChicken : bool;
  confidence : float;
  imageSize : nat * nat
}.

Record TeachableChickenDetector := {
  model : option (tensor → JS.exn + list float);
  modelUrl : string
}.

(** The callback of [reduce]:
    [(prev.confidence > current.confidence) ? prev : current] *)
Definition better (prev current : prediction) : prediction :=
  if JS.gt (Prediction.confidence prev) (Prediction.confidence current)
  then prev else current.

Section Labels.
(** [classes] and the label tested for in [isChicken]: the German
    script has ['Kein Huhn', 'Huhn'] and 'Huhn', the English one
    ['No Chicken', 'Chicken'] and 'Chicken'. *)
Context (classes : list string) (chicken : string).

(** [classes[i] || `Class ${i}`] *)
Definition label (i : nat) : string :=
  JS.or_else (classes !! i) ("Class " +:+ JS.show_nat i).

(** The [for] loop that fills [results]; [predictionData[i]] is read
    inside the array, [i < predictionData.length]. *)
Definition pair_up (predictionData : list float) : list prediction :=
  foldl (λ results i,
           results ++
           [Prediction.Make (label i) (default PrimFloat.nan (predictionData !! i))])
        [] (seq 0 (length predictionData)).

Definition best_of (results : list prediction) : JS.exn + prediction :=
  JS.reduce better results.

Definition decide_chicken (bestPrediction : prediction) : bool :=
  String.eqb (Prediction.class bestPrediction) chicken
  && JS.gt (Prediction.confidence bestPrediction) 0.7%float.

Context (W : World) (this : TeachableChickenDetector).

Definition detectChickens_body (imagePath : string) : Jimp.M results :=
  match model this with
  | None => Jimp.throw JS.ModelNotLoaded
  | Some predict =>
      if negb (existsSync W imagePath)
      then Jimp.throw (JS.ImageFileNotFound imagePath)
      else
        let* image := Jimp_read W imagePath in
        let* resized := Jimp.resize (kernel W) image 224 224 in
        let* bitmap := Jimp.get_bitmap resized in
        let width := Jimp.width bitmap in
        let height := Jimp.height bitmap in
        let tensor :=
          Tensor (imageArray bitmap) [1%nat; height; width; 3%nat] in
        let* predictionData := Jimp.lift (predict tensor) in
        let results := pair_up predictionData in
        let* bestPrediction := Jimp.lift (best_of results) in
        let* original := Jimp.get_bitmap image in
        Jimp.ret
          {| predictions := results;
             bestPrediction := bestPrediction;
             isChicken := decide_chicken bestPrediction;
             confidence := Prediction.confidence bestPrediction;
             imageSize := (Jimp.width original, Jimp.height original) |}
  end.

Definition detectChickens (imagePath : string) : JS.exn + results :=
  Jimp.exec (detectChickens_body imagePath).

Definition processImage (imagePath : string)
    : list (line results) * option results :=
  match detectChickens imagePath with
  | inr results => ([Displayed imagePath results], Some results)
  | inl error => ([ErrorProcessingImage error], None)
  end.

Definition batch_step
    (st : list (line results) * list (string * results) * nat)
    (imagePath : string) :=
  let '(out, results, totalChickens) := st in
  let '(printed, result) := processImage imagePath in
  match result with
  | Some result =>
      (out ++ printed, results ++ [(imagePath, result)],
       if isChicken result then S totalChickens else totalChickens)
  | None => (out ++ printed, results, totalChickens)
  end.

Definition processMultipleImages (imagePaths : list string)
    : list (line results) * list (string * results) :=
  let '(out, results, totalChickens) :=
    foldl batch_step ([Processing (length imagePaths)], [], 0%nat) imagePaths in
  (out ++ [BatchSummary (length results) totalChickens], results).

Definition image_files (imagePath : string) (entries : list string)
    : list string :=
  join W imagePath <$> JS.filter is_image_file entries.

End Labels.

(** [main]: [loaded] is the outcome of [loadModel] on [modelUrl]. *)
Definition main (classes : list string) (chicken : string) (W : World)
    (loaded : JS.exn + (tensor → JS.exn + list float))
    (argv2 argv3 : option string) : list (line results) :=
  let modelUrl := JS.or_else argv3 "./model/model.json" in
  match loaded with
  | inl error => [TopLevelError error]
  | inr m =>
      let detector := {| model := Some m; modelUrl := modelUrl |} in
      match argv2 with
      | None | Some EmptyString => [Usage]
      | Some imagePath =>
          match lstatSync W imagePath with
          | inl error => [ErrorAccessingPath error]
          | inr true =>
              match readdirSync W imagePath with
              | inl error => [TopLevelError error]
              | inr entries =>
                  let files := image_files W imagePath entries in
                  if decide (length files = 0%nat) then [NoImageFilesFound]
                  else fst (processMultipleImages classes chicken W detector files)
              end
          | inr false =>
              let '(printed, results) :=
                processImage classes chicken W detector imagePath in
              printed ++
              match results with
              | Some r => if isChicken r then [Found r] else [NoneDetected]
              | None => []
              end
          end
      end
  end.

(** The two copies of the script. *)
Definition classes_de : list string := ["Kein Huhn"; "Huhn"].
Definition classes_en : list string := ["No Chicken"; "Chicken"].

End Teachable.

(** ** The specification's wording, for comparison with the code *)
Module Spec.

(** "the entry with the maximum score; ties broken by first occurrence
    ... only replaces on strict >": the running best gives way only to a
    strictly greater score. *)
Definition keep_first (best current : Teachable.prediction)
    : Teachable.prediction :=
  if JS.gt (Teachable.Prediction.confidence current)
           (Teachable.Prediction.confidence best)
  then current else best.

Definition best_first (results : list Teachable.prediction)
    : option Teachable.prediction :=
  match results with
  | [] => None
  | x :: rest => Some (foldl keep_first x rest)
  end.

(** "the count of non-null results satisfying the detector's positive
    condition (filteredCount > 0 for the generic variant ...)" *)
Definition totalPositive_generic (results : list (option Coco.results)) : nat :=
  length (List.filter
            (λ r, match r with
                  | Some r => (0 <? Coco.birdDetections r)%nat
                  | None => false
                  end) results).

Definition totalPositive_binary (results : list (option Teachable.results)) : nat :=
  length (List.filter
            (λ r, match r with
                  | Some r => Teachable.isChicken r
                  | None => false
                  end) results).

(** "extracts the first channels color components (dropping alpha) and
    divides each by 255.0", pixel after pixel. *)
Fixpoint rgb_normalized (data : list byte) : list float :=
  match data with
  | r :: g :: b :: _ :: rest =>
      JS.fround (JS.div255 (Some r)) :: JS.fround (JS.div255 (Some g))
      :: JS.fround (JS.div255 (Some b)) :: rgb_normalized rest
  | _ => []
  end.

(** "filtered to extensions .jpg .jpeg .png .bmp .gif (case-insensitive)" *)
Definition extensions : list string :=
  [".jpg"; ".jpeg"; ".png"; ".bmp"; ".gif"].

Definition to_lower (c : ascii) : ascii :=
  let n := nat_of_ascii c in
  if (65 <=? n)%nat && (n <=? 90)%nat then ascii_of_nat (n + 32) else c.

Fixpoint lower (s : string) : string :=
  match s with
  | EmptyString => EmptyString
  | String c s' => String (to_lower c) (lower s')
  end.

Definition has_image_extension (name : string) : Prop :=
  ∃ ext stem, ext ∈ extensions ∧ lower name = stem +:+ ext.

End Spec.

(** ** Notions the properties are stated with *)
Module Notions.
Import Pipeline.

(** Scores of the classifier: numeric, and what "the last maximum" says. *)
Abbreviation conf := Teachable.Prediction.confidence.

Definition numeric (results : list Teachable.prediction) : Prop :=
  Forall (λ e, PrimFloat.is_nan (conf e) = false) results.

(** [b] sits at index [i], no entry scores above it, and every later entry
    scores strictly below it. *)
Definition last_max (results : list Teachable.prediction) (i : nat)
    (b : Teachable.prediction) : Prop :=
  results !! i = Some b
  ∧ (∀ j e, results !! j = Some e → PrimFloat.leb (conf e) (conf b) = true)
  ∧ (∀ j e, i < j → results !! j = Some e →
            PrimFloat.ltb (conf e) (conf b) = true).

(** Exponent first, then mantissa: the order of two finite numbers of the
    same sign. *)
Definition lex (e1 e2 : Z) (m1 m2 : positive) : comparison :=
  match Z.compare e1 e2 with
  | Lt => Lt
  | Gt => Gt
  | Eq => Pos.compare_cont Eq m1 m2
  end.

(** The images that gave a result, each with its path, in input order. *)
Definition processed (W : World) (this : Coco.ChickenDetector)
    (imagePaths : list string) : list (string * Coco.results) :=
  omap (λ p, pair p <$> snd (Coco.processImage W this p)) imagePaths.

(** What the per-image calls print, in input order. *)
Definition printed (W : World) (this : Coco.ChickenDetector)
    (imagePaths : list string) : list (line Coco.results) :=
  imagePaths ≫= (λ p, fst (Coco.processImage W this p)).

Definition birds (results : list (string * Coco.results)) : nat :=
  sum_list_with (Coco.birdDetections ∘ snd) results.

(** The same for the classifier. *)
Definition classified (classes : list string) (chicken : string) (W : World)
    (this : Teachable.TeachableChickenDetector) (imagePaths : list string)
    : list (string * Teachable.results) :=
  omap (λ p, pair p <$> snd (Teachable.processImage classes chicken W this p))
       imagePaths.

Definition reported (classes : list string) (chicken : string) (W : World)
    (this : Teachable.TeachableChickenDetector) (imagePaths : list string)
    : list (line Teachable.results) :=
  imagePaths ≫= (λ p, fst (Teachable.processImage classes chicken W this p)).

Definition chickens (results : list (string * Teachable.results)) : nat :=
  length (List.filter (Teachable.isChicken ∘ snd) results).

(** The characters of an expression are written in lower case. *)
Fixpoint lower_case (r : RegExp.re) : Prop :=
  match r with
  | RegExp.Char c => Spec.to_lower c = c
  | RegExp.Cat r1 r2 | RegExp.Or r1 r2 => lower_case r1 ∧ lower_case r2
  | RegExp.Opt r1 => lower_case r1
  | RegExp.End => True
  end.

End Notions.

(** ** A small world to run the scripts in *)
Module Examples.
Import Pipeline.

(** A 4 by 3 image: twelve RGBA pixels. *)
Definition hen : Jimp.bitmap :=
  Jimp.Bitmap 4 3
    (concat (replicate 12 [xc8; x96; x32; xff])).

(** An 800 by 600 photograph, uniformly grey. *)
Definition photo : Jimp.bitmap :=
  Jimp.Bitmap 800 600 (replicate (800 * 600 * 4) x80).

(** The directory "coop" holds a good image, a text file and a file named
    as an image that does not decode; "chicken-photo.jpg" is the
    photograph. *)
Definition world : World :=
  {| existsSync := λ p,
       String.eqb p "coop/hen.jpg" || String.eqb p "coop/notes.txt"
       || String.eqb p "coop/broken.PNG" || String.eqb p "coop"
       || String.eqb p "chicken-photo.jpg";
     read := λ p,
       if String.eqb p "coop/hen.jpg" then inr hen
       else if String.eqb p "chicken-photo.jpg" then inr photo
       else inl (JS.LibraryError "Could not find MIME for Buffer");
     kernel := λ _ _ _ _, x80;
     lstatSync := λ p,
       if String.eqb p "coop" then inr true
       else if String.eqb p "empty" then inr true
       else if String.eqb p "coop/hen.jpg" then inr false
       else if String.eqb p "chicken-photo.jpg" then inr false
       else inl (JS.LibraryError "ENOENT");
     readdirSync := λ p,
       if String.eqb p "coop"
       then inr ["hen.jpg"; "notes.txt"; "broken.PNG"]
       else if String.eqb p "empty" then inr ["notes.txt"; "jpg"]
       else inl (JS.LibraryError "ENOTDIR");
     join := λ dir file, dir +:+ "/" +:+ file |}.

(** A COCO-SSD model that sees two birds and a person in every image. *)
Definition coco_model (_ : tensor) : JS.exn + list Coco.detection :=
  inr [Coco.Detection "bird" 0.873%float [120; 200; 180; 240]%float;
       Coco.Detection "bird" 0.765%float [350; 150; 160; 220]%float;
       Coco.Detection "person" 0.652%float [10; 20; 90; 300]%float].

Definition coco_detector : Coco.ChickenDetector :=
  {| Coco.model := Some coco_model |}.

(** A classifier that answers [0.152, 0.848] for every image, and one
    whose output layer is empty. *)
Definition teachable_detector (scores : list float)
    : Teachable.TeachableChickenDetector :=
  {| Teachable.model := Some (λ _, inr scores);
     Teachable.modelUrl := "./model/model.json" |}.

End Examples.

(** ** Creating a detector *)
Module Lifecycle.
Import Pipeline.

(** [new ChickenDetector()]: [this.model = null]. *)
Definition new_ChickenDetector : Coco.ChickenDetector :=
  {| Coco.model := None |}.

(** [new TeachableChickenDetector(modelUrl)]: [this.model = null],
    [this.modelUrl = modelUrl || './model/model.json']. *)
Definition new_TeachableChickenDetector (modelUrl : option string)
    : Teachable.TeachableChickenDetector :=
  {| Teachable.model := None;
     Teachable.modelUrl := JS.or_else modelUrl "./model/model.json" |}.

End Lifecycle.

(** ** Further notions *)
Module Terms.
Import Pipeline.


(** The three elements the callback stores for pixel [k]. *)
Definition rgb_at (data : list byte) (k : nat) : list float :=
  [JS.fround (JS.div255 (data !! (k * 4)));
   JS.fround (JS.div255 (data !! (k * 4 + 1)));
   JS.fround (JS.div255 (data !! (k * 4 + 2)))].

(** The input the classifier's model is built for: one 224 by 224 RGB image
    with every value between 0 and 1. *)
Definition unit_image (t : tensor) : Prop :=
  shape t = [1; 224; 224; 3]
  ∧ length (values t) = 224 * 224 * 3
  ∧ Forall (λ v, PrimFloat.leb 0%float v = true ∧ PrimFloat.leb v 1%float = true)
           (values t).

(** A tensor of rank 3 holding as many values as its shape says. *)
Definition rgb_image (t : tensor) : Prop :=
  ∃ height width,
    shape t = [height; width; 3] ∧ length (values t) = height * width * 3.

(** A model that knows a third class. *)
Definition three_way : Teachable.TeachableChickenDetector :=
  {| Teachable.model := Some (λ _, inr [0.05%float; 0.9%float; 0.05%float]);
     Teachable.modelUrl := "./model/model.json" |}.

End Terms.

(* ===================================================================== *)
(** * Part II: properties *)
(* ===================================================================== *)

(** ** Order facts on numbers that are not NaN *)
Module FloatOrder.
Import Notions.

Lemma lex_cases e1 e2 m1 m2 :
  (lex e1 e2 m1 m2 = Lt ∧ (e1 < e2 ∨ e1 = e2 ∧ (m1 < m2)%positive))%Z ∨
  (lex e1 e2 m1 m2 = Eq ∧ e1 = e2 ∧ m1 = m2) ∨
  (lex e1 e2 m1 m2 = Gt ∧ (e2 < e1 ∨ e1 = e2 ∧ (m2 < m1)%positive))%Z.
Proof.
  unfold lex. destruct (Z.compare_spec e1 e2) as [He|He|He].
  - change (Pos.compare_cont Eq m1 m2) with (Pos.compare m1 m2).
    destruct (Pos.compare_spec m1 m2); intuition auto.
  - intuition auto.
  - intuition auto.
Qed.

Lemma SFcompare_finite s1 m1 e1 s2 m2 e2 :
  SFcompare (S754_finite s1 m1 e1) (S754_finite s2 m2 e2) =
  Some (match s1, s2 with
        | true, false => Lt
        | false, true => Gt
        | false, false => lex e1 e2 m1 m2
        | true, true => CompOpp (lex e1 e2 m1 m2)
        end).
Proof.
  unfold lex. destruct s1, s2; simpl; try reflexivity.
  destruct (e1 ?= e2)%Z; reflexivity.
Qed.

Ltac lex_split :=
  repeat match goal with
  | |- context [lex ?e1 ?e2 ?m1 ?m2] =>
      let H := fresh in
      destruct (lex_cases e1 e2 m1 m2) as [[-> H]|[[-> H]|[-> H]]]
  end.

Ltac sf_cases :=
  rewrite ?SFcompare_finite;
  repeat match goal with s : bool |- _ => destruct s end;
  cbn [SFcompare CompOpp]; lex_split; cbn [CompOpp];
  try discriminate; try reflexivity; try congruence;
  intros; exfalso; lia.

Lemma SFleb_trans f1 f2 f3 :
  SFleb f1 f2 = true → SFleb f2 f3 = true → SFleb f1 f3 = true.
Proof.
  unfold SFleb.
  destruct f1 as [s1|s1| |s1 m1 e1], f2 as [s2|s2| |s2 m2 e2],
           f3 as [s3|s3| |s3 m3 e3]; sf_cases.
Qed.

Lemma SFleb_total f1 f2 :
  f1 ≠ S754_nan → f2 ≠ S754_nan → SFltb f2 f1 = false → SFleb f1 f2 = true.
Proof.
  unfold SFleb, SFltb.
  destruct f1 as [s1|s1| |s1 m1 e1], f2 as [s2|s2| |s2 m2 e2]; sf_cases.
Qed.

Lemma SFltb_leb f1 f2 : SFltb f1 f2 = true → SFleb f1 f2 = true.
Proof. unfold SFltb, SFleb. destruct (SFcompare f1 f2) as [[]|]; auto. Qed.

Lemma SFleb_refl f : f ≠ S754_nan → SFleb f f = true.
Proof.
  unfold SFleb. destruct f as [s|s| |s m e]; sf_cases.
Qed.

Lemma not_nan (x : float) : PrimFloat.is_nan x = false → Prim2SF x ≠ S754_nan.
Proof.
  unfold PrimFloat.is_nan. rewrite FloatAxioms.eqb_spec. intros H E. rewrite E in H.
  discriminate.
Qed.

Lemma leb_trans (a b c : float) :
  PrimFloat.leb a b = true → PrimFloat.leb b c = true → PrimFloat.leb a c = true.
Proof. rewrite !FloatAxioms.leb_spec. apply SFleb_trans. Qed.

Lemma leb_total (a b : float) :
  PrimFloat.is_nan a = false → PrimFloat.is_nan b = false →
  PrimFloat.ltb b a = false → PrimFloat.leb a b = true.
Proof.
  intros Ha Hb. rewrite FloatAxioms.ltb_spec, FloatAxioms.leb_spec.
  apply SFleb_total; auto using not_nan.
Qed.

Lemma ltb_leb (a b : float) :
  PrimFloat.ltb a b = true → PrimFloat.leb a b = true.
Proof. rewrite FloatAxioms.ltb_spec, FloatAxioms.leb_spec. apply SFltb_leb. Qed.

Lemma leb_refl (a : float) :
  PrimFloat.is_nan a = false → PrimFloat.leb a a = true.
Proof. intros Ha. rewrite FloatAxioms.leb_spec. apply SFleb_refl, not_nan, Ha. Qed.

End FloatOrder.

(** ** Array loops *)
Module Arrays.

Lemma foldl_push {A B} (f : A → list B) (acc : list B) (l : list A) :
  foldl (λ acc x, acc ++ f x) acc l = acc ++ concat (map f l).
Proof.
  revert acc. induction l as [|x l IH]; intros acc; simpl.
  - by rewrite app_nil_r.
  - rewrite IH. by rewrite app_assoc.
Qed.

Lemma filter_from {A} (p : A → bool) (kept l : list A) :
  foldl (λ kept x, if p x then kept ++ [x] else kept) kept l
  = kept ++ List.filter p l.
Proof.
  revert kept. induction l as [|x l IH]; intros kept; simpl.
  - by rewrite app_nil_r.
  - rewrite IH. destruct (p x); [|done]. by rewrite <- app_assoc.
Qed.

Lemma filter_eq {A} (p : A → bool) (l : list A) :
  JS.filter p l = List.filter p l.
Proof. unfold JS.filter. by rewrite filter_from. Qed.

Lemma filter_sublist {A} (p : A → bool) (l : list A) :
  sublist (List.filter p l) l.
Proof.
  induction l as [|x l IH]; simpl; [constructor|].
  destruct (p x); by constructor.
Qed.

Lemma filter_length {A} (p : A → bool) (l : list A) :
  length (List.filter p l) ≤ length l.
Proof. apply sublist_length, filter_sublist. Qed.

End Arrays.

(** ** The result interpreter of [chicken-count.js] *)
Module CocoFacts.
Import Coco.

(** C6: the birds kept by [detectChickens] are exactly the predictions whose
    class is "bird" and whose score is strictly above 0.5, in the order the
    model returned them, so the bird count never exceeds the total count. *)
Theorem C6_bird_filter (predictions : list detection) (width height : nat) :
  birdPredictions (interpret predictions width height) =
    List.filter
      (λ p, String.eqb (class p) "bird" && PrimFloat.ltb 0.5%float (score p))
      predictions
  ∧ (∀ p, p ∈ birdPredictions (interpret predictions width height) ↔
          p ∈ predictions ∧ class p = "bird"
          ∧ PrimFloat.ltb 0.5%float (score p) = true)
  ∧ sublist (birdPredictions (interpret predictions width height)) predictions
  ∧ birdDetections (interpret predictions width height) =
      length (birdPredictions (interpret predictions width height))
  ∧ totalDetections (interpret predictions width height) = length predictions
  ∧ birdDetections (interpret predictions width height)
      ≤ totalDetections (interpret predictions width height).
Proof.
  cbn [interpret birdPredictions birdDetections totalDetections].
  rewrite Arrays.filter_eq.
  change (λ p, String.eqb (class p) "bird" && PrimFloat.ltb 0.5%float (score p))
    with is_bird.
  split; [done|]. split; [|split; [|split; [done|split; [done|]]]].
  - intros p. rewrite !list_elem_of_In, filter_In. unfold is_bird, JS.gt.
    rewrite andb_true_iff, String.eqb_eq. tauto.
  - apply Arrays.filter_sublist.
  - apply Arrays.filter_length.
Qed.

End CocoFacts.

(** ** The result interpreter of [chicken-count-teachable.js] *)
Module TeachableFacts.
Import Teachable.

Lemma pair_up_map (classes : list string) (predictionData : list float) :
  pair_up classes predictionData =
    (λ i, Prediction.Make (label classes i)
            (default PrimFloat.nan (predictionData !! i)))
    <$> seq 0 (length predictionData).
Proof.
  unfold pair_up.
  rewrite (Arrays.foldl_push
             (λ i, [Prediction.Make (label classes i)
                      (default PrimFloat.nan (predictionData !! i))])).
  simpl. generalize (seq 0 (length predictionData)) as l.
  induction l as [|i l IH]; simpl; [done|]. by rewrite IH.
Qed.

Lemma pair_up_length (classes : list string) (predictionData : list float) :
  length (pair_up classes predictionData) = length predictionData.
Proof. by rewrite pair_up_map, length_fmap, length_seq. Qed.

Lemma pair_up_lookup (classes : list string) (predictionData : list float) i s :
  predictionData !! i = Some s →
  pair_up classes predictionData !! i = Some (Prediction.Make (label classes i) s).
Proof.
  intros Hi. rewrite pair_up_map, list_lookup_fmap.
  rewrite lookup_seq_lt by (by eapply lookup_lt_Some).
  simpl. by rewrite Hi.
Qed.

(** C9: every score is paired with the label configured at its index, a
    label missing from the list is written "Class i", and the predictions
    are one per score, in the order of the scores. *)
Theorem C9_pair_up (classes : list string) (predictionData : list float)
    (Hlabels : Forall (λ l, l ≠ EmptyString) classes) :
  length (pair_up classes predictionData) = length predictionData
  ∧ ∀ i s, predictionData !! i = Some s →
      pair_up classes predictionData !! i =
        Some (Prediction.Make
                (match classes !! i with
                 | Some l => l
                 | None => "Class " +:+ JS.show_nat i
                 end) s).
Proof.
  split; [apply pair_up_length|].
  intros i s Hi. rewrite (pair_up_lookup _ _ _ _ Hi). do 2 f_equal.
  unfold label. destruct (classes !! i) as [l|] eqn:Hl; [|done].
  rewrite Forall_forall in Hlabels.
  assert (l ≠ EmptyString) by (eapply Hlabels, list_elem_of_lookup_2, Hl).
  by destruct l.
Qed.

Example pair_up_en :
  pair_up classes_en [0.25%float; 0.5%float; 0.125%float] =
    [Prediction.Make "No Chicken" 0.25%float;
     Prediction.Make "Chicken" 0.5%float;
     Prediction.Make "Class 2" 0.125%float].
Proof. reflexivity. Qed.

Lemma C9_pair_up_witness :
  Forall (λ l, l ≠ EmptyString) classes_en
  ∧ length (pair_up classes_en [0.25%float; 0.5%float; 0.125%float]) = 3
  ∧ ∀ i s, [0.25%float; 0.5%float; 0.125%float] !! i = Some s →
      pair_up classes_en [0.25%float; 0.5%float; 0.125%float] !! i =
        Some (Prediction.Make
                (match classes_en !! i with
                 | Some l => l
                 | None => "Class " +:+ JS.show_nat i
                 end) s).
Proof.
  assert (H : Forall (λ l, l ≠ EmptyString) classes_en)
    by (repeat constructor; discriminate).
  split; [exact H|].
  exact (C9_pair_up classes_en [0.25%float; 0.5%float; 0.125%float] H).
Defined.

End TeachableFacts.

(** ** Selecting the best prediction *)
Module Selection.
Import Teachable Notions.

Lemma better_step (seen : list prediction) i acc current :
  numeric (seen ++ [current]) →
  last_max seen i acc →
  ∃ i', last_max (seen ++ [current]) i' (better acc current).
Proof.
  intros Hnum (Hi & Hmax & Hlast).
  apply Forall_app in Hnum as [Hseen Hcur].
  apply Forall_inv in Hcur. cbn beta in Hcur.
  assert (Hacc : PrimFloat.is_nan (conf acc) = false).
  { rewrite Forall_forall in Hseen.
    apply (Hseen acc). eapply list_elem_of_lookup_2, Hi. }
  unfold better, JS.gt.
  destruct (PrimFloat.ltb (conf current) (conf acc)) eqn:E.
  - exists i. split; [|split].
    + by apply lookup_app_l_Some.
    + intros j e [Hj|[_ Hj]]%lookup_app_Some; [by eapply Hmax|].
      apply list_lookup_singleton_Some in Hj as [_ <-].
      by apply FloatOrder.ltb_leb.
    + intros j e Hij [Hj|[_ Hj]]%lookup_app_Some; [by eapply Hlast|].
      by apply list_lookup_singleton_Some in Hj as [_ <-].
  - exists (length seen). split; [|split].
    + by rewrite list_lookup_middle.
    + intros j e [Hj|[_ Hj]]%lookup_app_Some.
      * eapply FloatOrder.leb_trans; [by eapply Hmax|].
        apply FloatOrder.leb_total; assumption.
      * apply list_lookup_singleton_Some in Hj as [_ <-].
        by apply FloatOrder.leb_refl.
    + intros j e Hij Hj. apply lookup_lt_Some in Hj.
      rewrite length_app in Hj. simpl in Hj. lia.
Qed.

Lemma foldl_better (rest seen : list prediction) i acc :
  numeric (seen ++ rest) →
  last_max seen i acc →
  ∃ i', last_max (seen ++ rest) i' (foldl better acc rest).
Proof.
  revert seen i acc. induction rest as [|current rest IH]; intros seen i acc.
  - rewrite app_nil_r. simpl. eauto.
  - intros Hnum Hlm. simpl.
    replace (seen ++ current :: rest) with ((seen ++ [current]) ++ rest) in *
      by (by rewrite <- app_assoc).
    destruct (better_step seen i acc current) as [i' Hi']; [|done|by eapply IH].
    by apply Forall_app in Hnum as [? _].
Qed.

Lemma last_max_unique (results : list prediction) i b i' b' :
  last_max results i b → last_max results i' b' → i = i' ∧ b = b'.
Proof.
  intros (Hi & Hmax & Hlast) (Hi' & Hmax' & Hlast').
  assert (Hlt : ∀ x y, PrimFloat.ltb x y = true → PrimFloat.leb y x = true → False).
  { intros x y. rewrite FloatAxioms.ltb_spec, FloatAxioms.leb_spec.
    unfold SFltb, SFleb.
    destruct (Prim2SF x) as [s1|s1| |s1 m1 e1], (Prim2SF y) as [s2|s2| |s2 m2 e2];
      FloatOrder.sf_cases. }
  destruct (lt_eq_lt_dec i i') as [[H|H]|H].
  - exfalso. eapply Hlt; [by eapply (Hlast i' b')|by eapply Hmax'].
  - subst i'. split; [done|congruence].
  - exfalso. eapply Hlt; [by eapply (Hlast' i b)|by eapply Hmax].
Qed.

End Selection.

(** ** Running [detectChickens] of the classifier *)
Module TeachableRun.
Import Pipeline Teachable.

Section Run.
Context (classes : list string) (chicken : string).
Context (W : World) (this : TeachableChickenDetector).

(** What the call comes to, effect by effect. *)
Lemma classify_unfold (imagePath : string) :
  detectChickens classes chicken W this imagePath =
  match model this with
  | None => inl JS.ModelNotLoaded
  | Some predict =>
      if existsSync W imagePath then
        match read W imagePath with
        | inl e => inl e
        | inr loaded =>
            let bitmap := Jimp.resample (kernel W) loaded 224 224 in
            match predict (Tensor (imageArray bitmap) [1; 224; 224; 3]) with
            | inl e => inl e
            | inr predictionData =>
                match best_of (pair_up classes predictionData) with
                | inl e => inl e
                | inr best =>
                    inr {| predictions := pair_up classes predictionData;
                           bestPrediction := best;
                           isChicken := decide_chicken chicken best;
                           confidence := Prediction.confidence best;
                           imageSize := (224, 224) |}
                end
            end
        end
      else inl (JS.ImageFileNotFound imagePath)
  end.
Proof.
  unfold detectChickens, detectChickens_body, Jimp.exec.
  destruct (model this) as [predict|]; [|done].
  destruct (existsSync W imagePath); [|done].
  cbv beta iota zeta delta
    [negb Jimp.bind Jimp_read Jimp.lift Jimp.alloc Jimp.resize
     Jimp.get_bitmap Jimp.ret].
  destruct (read W imagePath) as [e|loaded]; [done|].
  rewrite !lookup_insert_eq.
  change (Jimp.width (Jimp.resample (kernel W) loaded 224 224)) with 224.
  change (Jimp.height (Jimp.resample (kernel W) loaded 224 224)) with 224.
  destruct (predict _) as [e|predictionData]; [done|].
  destruct (best_of _) as [e|best]; [done|].
  rewrite insert_insert_eq, lookup_insert_eq.
  reflexivity.
Qed.

End Run.

End TeachableRun.

(** ** Best prediction and decision of the classifier *)
Module TeachableClaims.
Import Pipeline Teachable Notions Selection.

(** C3 (as the code has it): on a non-empty list of predictions with
    numeric scores the reduction returns the entry with the maximum score,
    and among equal maxima the LAST one: the running best survives only
    while its score is strictly greater than the current entry's, and is
    replaced otherwise.  The entry so described is unique, so the
    selection is a function of the list. *)
Theorem C3_best_is_last_maximum (results : list prediction)
    (Hne : results ≠ []) (Hnum : numeric results) :
  (∀ prev current,
      better prev current =
        if PrimFloat.ltb (conf current) (conf prev) then prev else current)
  ∧ ∃ i b, best_of results = inr b
      ∧ last_max results i b
      ∧ ∀ i' b', last_max results i' b' → i' = i ∧ b' = b.
Proof.
  split; [done|].
  destruct results as [|x rest]; [done|].
  destruct (foldl_better rest [x] 0 x) as [i Hi]; [done| |].
  { split; [done|]. apply Forall_inv in Hnum. cbn beta in Hnum. split.
    - intros j e [-> <-]%list_lookup_singleton_Some.
      by apply FloatOrder.leb_refl.
    - intros j e Hj [-> _]%list_lookup_singleton_Some. lia. }
  exists i, (foldl better x rest). split; [done|]. split; [done|].
  intros i' b' H'. eapply last_max_unique; eassumption.
Qed.

Lemma C3_best_is_last_maximum_witness :
  [Prediction.Make "No Chicken" 0.5%float; Prediction.Make "Chicken" 0.5%float] ≠ []
  ∧ numeric [Prediction.Make "No Chicken" 0.5%float; Prediction.Make "Chicken" 0.5%float]
  ∧ ∃ i b,
      best_of [Prediction.Make "No Chicken" 0.5%float;
               Prediction.Make "Chicken" 0.5%float] = inr b
      ∧ last_max [Prediction.Make "No Chicken" 0.5%float;
                  Prediction.Make "Chicken" 0.5%float] i b
      ∧ ∀ i' b',
          last_max [Prediction.Make "No Chicken" 0.5%float;
                    Prediction.Make "Chicken" 0.5%float] i' b' →
          i' = i ∧ b' = b.
Proof.
  assert (Hne : [Prediction.Make "No Chicken" 0.5%float;
                 Prediction.Make "Chicken" 0.5%float] ≠ []) by discriminate.
  assert (Hnum : numeric [Prediction.Make "No Chicken" 0.5%float;
                          Prediction.Make "Chicken" 0.5%float])
    by (repeat constructor).
  split; [exact Hne|]. split; [exact Hnum|].
  exact (proj2 (C3_best_is_last_maximum _ Hne Hnum)).
Defined.

(** A score that is not a number defeats the reduction: nothing compares
    with it, so it is replaced by whatever follows, however small. *)
Example nan_breaks_maximum :
  best_of [Prediction.Make "No Chicken" 0.9%float;
           Prediction.Make "Chicken" PrimFloat.nan;
           Prediction.Make "Class 2" 0.1%float]
  = inr (Prediction.Make "Class 2" 0.1%float).
Proof. reflexivity. Qed.

(** C3 as the specification words it fails: of two entries with the same
    score the first is the specification's best, and the code returns the
    second. *)
Lemma C3_counterexample :
  Spec.best_first (pair_up classes_en [0.5%float; 0.5%float]) =
    Some (Prediction.Make "No Chicken" 0.5%float)
  ∧ best_of (pair_up classes_en [0.5%float; 0.5%float]) ≠
    inr (Prediction.Make "No Chicken" 0.5%float).
Proof. split; [reflexivity|]. vm_compute. discriminate. Qed.

End TeachableClaims.

(** ** What [detectChickens] of the classifier returns *)
Module TeachableResults.
Import Pipeline Teachable Selection.

(** A result comes from a loaded model, a readable image, a successful
    inference and a non-empty output. *)
Lemma detectChickens_inr classes chicken W this imagePath r :
  detectChickens classes chicken W this imagePath = inr r →
  ∃ predict loaded predictionData best,
    model this = Some predict
    ∧ existsSync W imagePath = true
    ∧ read W imagePath = inr loaded
    ∧ predict (Tensor (imageArray (Jimp.resample (kernel W) loaded 224 224))
                 [1; 224; 224; 3]) = inr predictionData
    ∧ best_of (pair_up classes predictionData) = inr best
    ∧ r = {| predictions := pair_up classes predictionData;
             bestPrediction := best;
             isChicken := decide_chicken chicken best;
             confidence := Prediction.confidence best;
             imageSize := (224, 224) |}.
Proof.
  rewrite TeachableRun.classify_unfold.
  destruct (model this) as [predict|]; [|done].
  destruct (existsSync W imagePath); [|done].
  destruct (read W imagePath) as [?|loaded]; [done|]. cbv zeta.
  destruct (predict _) as [?|predictionData] eqn:Hp; [done|].
  destruct (best_of _) as [?|best] eqn:Hb; [done|].
  intros [= <-]. by exists predict, loaded, predictionData, best.
Qed.

Lemma detectChickens_run classes chicken W this imagePath
    predict loaded predictionData best :
  model this = Some predict →
  existsSync W imagePath = true →
  read W imagePath = inr loaded →
  predict (Tensor (imageArray (Jimp.resample (kernel W) loaded 224 224))
             [1; 224; 224; 3]) = inr predictionData →
  best_of (pair_up classes predictionData) = inr best →
  detectChickens classes chicken W this imagePath =
    inr {| predictions := pair_up classes predictionData;
           bestPrediction := best;
           isChicken := decide_chicken chicken best;
           confidence := Prediction.confidence best;
           imageSize := (224, 224) |}.
Proof.
  intros Hm He Hr Hp Hb. rewrite TeachableRun.classify_unfold.
  rewrite Hm, He, Hr. cbv zeta. by rewrite Hp, Hb.
Qed.

(** [resize] hands back the reference it was given, and the object behind
    it now carries the resized bitmap: [resized] and [image] are one
    object. *)
Lemma resize_aliases kernel (image : Jimp.ref) w h (σ σ' : Jimp.store) resized :
  Jimp.resize kernel image w h σ = inr (resized, σ') →
  resized = image
  ∧ ∃ b, σ !! image = Some b ∧ σ' !! image = Some (Jimp.resample kernel b w h).
Proof.
  unfold Jimp.resize, Jimp.bind, Jimp.get_bitmap.
  destruct (σ !! image) as [b|] eqn:Hb; [|done].
  intros [= <- <-]. split; [done|]. exists b. by rewrite lookup_insert_eq.
Qed.

Lemma imageSize_is_resized classes chicken W this imagePath r :
  detectChickens classes chicken W this imagePath = inr r →
  imageSize r = (224, 224).
Proof.
  intros (?&?&?&?&_&_&_&_&_&->)%detectChickens_inr. reflexivity.
Qed.

(** C4: [isChicken] holds exactly when the best prediction carries the
    positive label and its score is strictly above 0.7; with the labels
    "No Chicken", "Chicken" and scores 0.152, 0.848 the best prediction is
    ("Chicken", 0.848) and the decision is true. *)
Theorem C4_decision :
  (∀ classes chicken W this imagePath r,
      detectChickens classes chicken W this imagePath = inr r →
      best_of (predictions r) = inr (bestPrediction r)
      ∧ confidence r = Prediction.confidence (bestPrediction r)
      ∧ (isChicken r = true ↔
           Prediction.class (bestPrediction r) = chicken
           ∧ PrimFloat.ltb 0.7%float
               (Prediction.confidence (bestPrediction r)) = true))
  ∧ (∀ W this imagePath predict loaded,
      model this = Some predict →
      existsSync W imagePath = true →
      read W imagePath = inr loaded →
      predict (Tensor (imageArray (Jimp.resample (kernel W) loaded 224 224))
                 [1; 224; 224; 3]) = inr [0.152%float; 0.848%float] →
      ∃ r, detectChickens classes_en "Chicken" W this imagePath = inr r
           ∧ predictions r = [Prediction.Make "No Chicken" 0.152%float;
                              Prediction.Make "Chicken" 0.848%float]
           ∧ bestPrediction r = Prediction.Make "Chicken" 0.848%float
           ∧ isChicken r = true).
Proof.
  split.
  - intros classes chicken W this imagePath r
      (predict & loaded & pd & best & _ & _ & _ & _ & Hb & ->)%detectChickens_inr.
    cbn [predictions bestPrediction confidence isChicken].
    split; [done|]. split; [done|].
    unfold decide_chicken, JS.gt. by rewrite andb_true_iff, String.eqb_eq.
  - intros W this imagePath predict loaded Hm He Hr Hp.
    eexists. split.
    + eapply detectChickens_run; try eassumption. reflexivity.
    + cbn [predictions bestPrediction isChicken]. split; [reflexivity|].
      split; reflexivity.
Qed.

Lemma C4_decision_witness :
  ∃ r, detectChickens classes_en "Chicken" Examples.world
         (Examples.teachable_detector [0.152%float; 0.848%float])
         "coop/hen.jpg" = inr r
       ∧ bestPrediction r = Prediction.Make "Chicken" 0.848%float
       ∧ isChicken r = true
       ∧ (isChicken r = true ↔
            Prediction.class (bestPrediction r) = "Chicken"
            ∧ PrimFloat.ltb 0.7%float
                (Prediction.confidence (bestPrediction r)) = true).
Proof.
  destruct (proj2 C4_decision Examples.world
              (Examples.teachable_detector [0.152%float; 0.848%float])
              "coop/hen.jpg" (λ _, inr [0.152%float; 0.848%float]) Examples.hen
              eq_refl eq_refl eq_refl eq_refl)
    as (r & Hrun & _ & Hbest & Hdec).
  exists r. split; [exact Hrun|]. split; [exact Hbest|]. split; [exact Hdec|].
  exact (proj2 (proj2 (proj1 C4_decision _ _ _ _ _ _ Hrun))).
Defined.

(** The scores as a [Float32Array] holds them decide the same way. *)
Example scenario_B_binary32 :
  best_of (pair_up classes_en [JS.fround 0.152%float; JS.fround 0.848%float])
    = inr (Prediction.Make "Chicken" (JS.fround 0.848%float))
  ∧ decide_chicken "Chicken"
      (Prediction.Make "Chicken" (JS.fround 0.848%float)) = true.
Proof. split; vm_compute; reflexivity. Qed.

(** C7, at an 800 by 600 photograph: the classifier's [imageSize] is 224 by
    224, the size after [resize], and not the size the file was loaded
    with. *)
Theorem C7_imageSize_after_resize :
  read Examples.world "chicken-photo.jpg" = inr Examples.photo
  ∧ Jimp.width Examples.photo = 800 ∧ Jimp.height Examples.photo = 600
  ∧ ∃ r, detectChickens classes_en "Chicken" Examples.world
           (Examples.teachable_detector [0.152%float; 0.848%float])
           "chicken-photo.jpg" = inr r
         ∧ imageSize r = (224, 224).
Proof.
  split; [reflexivity|]. split; [reflexivity|]. split; [reflexivity|].
  eexists. split.
  - eapply detectChickens_run; reflexivity.
  - reflexivity.
Qed.

End TeachableResults.

(** ** An empty output layer *)
Module EmptyOutput.
Import Pipeline Teachable.

Lemma best_of_empty (results : list prediction) :
  best_of results = inl JS.ReduceOfEmptyArray ↔ results = [].
Proof. destruct results; simpl; split; done. Qed.

Lemma pair_up_empty classes (predictionData : list float) :
  pair_up classes predictionData = [] ↔ predictionData = [].
Proof.
  split; [|by intros ->].
  intros H. apply (f_equal length) in H.
  rewrite TeachableFacts.pair_up_length in H. by destruct predictionData.
Qed.

(** C10: when the model's output has no score, [reduce] has nothing to
    start from and throws; [detectChickens] returns no result and
    [processImage] turns the failure into [null].  Only a non-empty list
    of predictions has a best one. *)
Theorem C10_empty_scores classes chicken W this imagePath predict
    (Hmodel : model this = Some predict)
    (Hempty : ∀ t, predict t = inr []) :
  (∃ e, detectChickens classes chicken W this imagePath = inl e)
  ∧ snd (processImage classes chicken W this imagePath) = None
  ∧ (∀ loaded,
       existsSync W imagePath = true → read W imagePath = inr loaded →
       detectChickens classes chicken W this imagePath
         = inl JS.ReduceOfEmptyArray
       ∧ processImage classes chicken W this imagePath
         = ([ErrorProcessingImage JS.ReduceOfEmptyArray], None))
  ∧ (∀ results : list prediction,
       best_of results = inl JS.ReduceOfEmptyArray ↔ results = [])
  ∧ (∀ results : list prediction,
       results ≠ [] → ∃ b, best_of results = inr b).
Proof.
  assert (Hrun : detectChickens classes chicken W this imagePath =
                 if existsSync W imagePath then
                   match read W imagePath with
                   | inl e => inl e
                   | inr _ => inl JS.ReduceOfEmptyArray
                   end
                 else inl (JS.ImageFileNotFound imagePath)).
  { rewrite TeachableRun.classify_unfold, Hmodel.
    destruct (existsSync W imagePath); [|done].
    destruct (read W imagePath) as [?|loaded]; [done|].
    cbv zeta. by rewrite Hempty. }
  assert (Hfail : ∃ e, detectChickens classes chicken W this imagePath = inl e).
  { rewrite Hrun. destruct (existsSync W imagePath); [|by eexists].
    destruct (read W imagePath); by eexists. }
  split; [exact Hfail|]. split; [|split; [|split]].
  - unfold processImage. by destruct Hfail as [e ->].
  - intros loaded He Hr. unfold processImage. by rewrite Hrun, He, Hr.
  - apply best_of_empty.
  - intros [|x rest] Hne; [done|]. by eexists.
Qed.

Lemma C10_empty_scores_witness :
  model (Examples.teachable_detector []) = Some (λ _, inr [])
  ∧ (∀ t : tensor, (λ _ : tensor, @inr JS.exn (list float) []) t = inr [])
  ∧ detectChickens classes_de "Huhn" Examples.world
      (Examples.teachable_detector []) "coop/hen.jpg"
    = inl JS.ReduceOfEmptyArray
  ∧ processImage classes_de "Huhn" Examples.world
      (Examples.teachable_detector []) "coop/hen.jpg"
    = ([ErrorProcessingImage JS.ReduceOfEmptyArray], None).
Proof.
  split; [reflexivity|]. split; [reflexivity|].
  exact (proj1 (proj2 (proj2
           (C10_empty_scores classes_de "Huhn" Examples.world
              (Examples.teachable_detector []) "coop/hen.jpg"
              (λ _, inr []) eq_refl (λ _, eq_refl))))
           Examples.hen eq_refl eq_refl).
Defined.

End EmptyOutput.

(** ** Running [detectChickens] of the detector *)
Module CocoRun.
Import Pipeline Coco.

Lemma detect_unfold W this (imagePath : string) :
  detectChickens W this imagePath =
  match model this with
  | None => inl JS.ModelNotLoaded
  | Some detect =>
      if existsSync W imagePath then
        match read W imagePath with
        | inl e => inl e
        | inr bitmap =>
            match detect (Tensor (imageArray bitmap)
                            [Jimp.height bitmap; Jimp.width bitmap; 3]) with
            | inl e => inl e
            | inr predictions =>
                inr (interpret predictions (Jimp.width bitmap) (Jimp.height bitmap))
            end
        end
      else inl (JS.ImageFileNotFound imagePath)
  end.
Proof.
  unfold detectChickens, detectChickens_body, Jimp.exec.
  destruct (model this) as [detect|]; [|done].
  destruct (existsSync W imagePath); [|done].
  cbv beta iota zeta delta
    [negb Jimp.bind Jimp_read Jimp.lift Jimp.alloc Jimp.get_bitmap Jimp.ret].
  destruct (read W imagePath) as [e|bitmap]; [done|].
  rewrite !lookup_insert_eq.
  by destruct (detect _) as [e|predictions].
Qed.

End CocoRun.

(** ** Batches *)
Module Batch.
Import Pipeline.

Section Generic.
Context (W : World) (this : Coco.ChickenDetector).

Local Abbreviation processed := (Notions.processed W this).
Local Abbreviation printed := (Notions.printed W this).
Local Abbreviation birds := Notions.birds.

Lemma birds_app r1 r2 : birds (r1 ++ r2) = birds r1 + birds r2.
Proof. apply sum_list_with_app. Qed.

Lemma foldl_batch_step imagePaths out results totalChickens :
  foldl (Coco.batch_step W this) (out, results, totalChickens) imagePaths =
  (out ++ printed imagePaths, results ++ processed imagePaths,
   totalChickens + birds (processed imagePaths)).
Proof.
  revert out results totalChickens.
  induction imagePaths as [|p imagePaths IH]; intros out results totalChickens.
  - simpl. unfold birds. simpl. by rewrite !app_nil_r, Nat.add_0_r.
  - simpl. unfold printed, processed in *. simpl.
    destruct (Coco.processImage W this p) as [line [r|]]; simpl; rewrite IH.
    + rewrite <- !app_assoc. simpl. f_equal.
      unfold birds. simpl. lia.
    + by rewrite <- !app_assoc.
Qed.

Lemma processMultipleImages_eq imagePaths :
  Coco.processMultipleImages W this imagePaths =
  (Processing (length imagePaths) :: printed imagePaths
     ++ [BatchSummary (length (processed imagePaths)) (birds (processed imagePaths))],
   processed imagePaths).
Proof.
  unfold Coco.processMultipleImages. by rewrite foldl_batch_step.
Qed.

(** Each path prints one line: its report, or its error. *)
Lemma printed_eq imagePaths :
  printed imagePaths =
  (λ p, match Coco.detectChickens W this p with
        | inr r => Displayed p r
        | inl e => ErrorProcessingImage e
        end) <$> imagePaths.
Proof.
  unfold printed. induction imagePaths as [|p l IH]; [done|].
  rewrite bind_cons, IH, fmap_cons. unfold Coco.processImage.
  by destruct (Coco.detectChickens W this p).
Qed.

End Generic.

Section Binary.
Context (classes : list string) (chicken : string).
Context (W : World) (this : Teachable.TeachableChickenDetector).

Local Abbreviation classified := (Notions.classified classes chicken W this).
Local Abbreviation reported := (Notions.reported classes chicken W this).
Local Abbreviation chickens := Notions.chickens.

Lemma chickens_app r1 r2 : chickens (r1 ++ r2) = chickens r1 + chickens r2.
Proof. unfold chickens. by rewrite List.filter_app, length_app. Qed.

Lemma foldl_batch_step_binary imagePaths out results totalChickens :
  foldl (Teachable.batch_step classes chicken W this)
        (out, results, totalChickens) imagePaths =
  (out ++ reported imagePaths, results ++ classified imagePaths,
   totalChickens + chickens (classified imagePaths)).
Proof.
  revert out results totalChickens.
  induction imagePaths as [|p imagePaths IH]; intros out results totalChickens.
  - simpl. unfold chickens. simpl. by rewrite !app_nil_r, Nat.add_0_r.
  - simpl. unfold reported, classified in *. simpl.
    destruct (Teachable.processImage classes chicken W this p) as [line [r|]];
      simpl; rewrite IH.
    + rewrite <- !app_assoc. simpl. f_equal.
      unfold chickens. simpl. destruct (Teachable.isChicken r); simpl; lia.
    + by rewrite <- !app_assoc.
Qed.

Lemma processMultipleImages_binary_eq imagePaths :
  Teachable.processMultipleImages classes chicken W this imagePaths =
  (Processing (length imagePaths) :: reported imagePaths
     ++ [BatchSummary (length (classified imagePaths))
                      (chickens (classified imagePaths))],
   classified imagePaths).
Proof.
  unfold Teachable.processMultipleImages. by rewrite foldl_batch_step_binary.
Qed.

Lemma reported_eq imagePaths :
  reported imagePaths =
  (λ p, match Teachable.detectChickens classes chicken W this p with
        | inr r => Displayed p r
        | inl e => ErrorProcessingImage e
        end) <$> imagePaths.
Proof.
  unfold reported. induction imagePaths as [|p l IH]; [done|].
  rewrite bind_cons, IH, fmap_cons. unfold Teachable.processImage.
  by destruct (Teachable.detectChickens classes chicken W this p).
Qed.

(** The count of positive non-null results, as the specification words it. *)
Lemma chickens_spec imagePaths :
  chickens (classified imagePaths) =
  Spec.totalPositive_binary
    ((λ p, snd (Teachable.processImage classes chicken W this p)) <$> imagePaths).
Proof.
  unfold chickens, classified, Spec.totalPositive_binary.
  induction imagePaths as [|p l IH]; [done|]. simpl.
  destruct (snd (Teachable.processImage classes chicken W this p)) as [r|]; simpl.
  - destruct (Teachable.isChicken r); simpl; [f_equal|]; apply IH.
  - apply IH.
Qed.

End Binary.

End Batch.

(** ** What a batch returns and prints *)
Module BatchClaims.
Import Pipeline Notions Batch.

Lemma omap_paths_sublist {R} (f : string → option R) (imagePaths : list string) :
  sublist (fst <$> omap (λ p, pair p <$> f p) imagePaths) imagePaths.
Proof.
  induction imagePaths as [|p l IH]; simpl; [constructor|].
  destruct (f p); simpl; by constructor.
Qed.

Lemma positive_le_birds W this (imagePaths : list string) :
  Spec.totalPositive_generic
    ((λ p, snd (Coco.processImage W this p)) <$> imagePaths)
  ≤ birds (processed W this imagePaths).
Proof.
  unfold Spec.totalPositive_generic, birds, processed.
  induction imagePaths as [|p l IH]; csimpl; [done|].
  destruct (snd (Coco.processImage W this p)) as [r|]; csimpl; [|done].
  destruct (Nat.ltb_spec 0 (Coco.birdDetections r)); csimpl; lia.
Qed.

(** C1 (as the code has it): [processMultipleImages] returns the list of
    results and prints the summary.  The total it prints is, for the
    detector, the sum of the bird counts of the non-null results, and for
    the classifier the number of non-null results with [isChicken] true;
    only the latter is bounded by the number of images processed. *)
Theorem C1_batch_totals :
  (∀ W this imagePaths,
      Coco.processMultipleImages W this imagePaths =
        (Processing (length imagePaths) :: printed W this imagePaths
           ++ [BatchSummary
                 (length (processed W this imagePaths))
                 (sum_list_with (Coco.birdDetections ∘ snd)
                    (processed W this imagePaths))],
         processed W this imagePaths)
      ∧ Spec.totalPositive_generic
          ((λ p, snd (Coco.processImage W this p)) <$> imagePaths)
        ≤ sum_list_with (Coco.birdDetections ∘ snd) (processed W this imagePaths))
  ∧ (∀ classes chicken W this imagePaths,
      Teachable.processMultipleImages classes chicken W this imagePaths =
        (Processing (length imagePaths)
           :: reported classes chicken W this imagePaths
           ++ [BatchSummary
                 (length (classified classes chicken W this imagePaths))
                 (Spec.totalPositive_binary
                    ((λ p, snd (Teachable.processImage classes chicken W this p))
                       <$> imagePaths))],
         classified classes chicken W this imagePaths)
      ∧ Spec.totalPositive_binary
          ((λ p, snd (Teachable.processImage classes chicken W this p))
             <$> imagePaths)
        ≤ length (classified classes chicken W this imagePaths)).
Proof.
  split.
  - intros W this imagePaths. split; [apply processMultipleImages_eq|].
    apply positive_le_birds.
  - intros classes chicken W this imagePaths.
    rewrite processMultipleImages_binary_eq, <- chickens_spec.
    split; [done|]. apply Arrays.filter_length.
Qed.

(** C1 as the specification words it fails for the detector: one image with
    two birds gives a printed total of 2, where the images with at least one
    bird number 1, as do the images processed. *)
Lemma C1_counterexample :
  Coco.processMultipleImages Examples.world Examples.coco_detector
    ["coop/hen.jpg"]
  = ([Processing 1;
      Displayed "coop/hen.jpg"
        (Coco.interpret
           [Coco.Detection "bird" 0.873%float [120; 200; 180; 240]%float;
            Coco.Detection "bird" 0.765%float [350; 150; 160; 220]%float;
            Coco.Detection "person" 0.652%float [10; 20; 90; 300]%float] 4 3);
      BatchSummary 1 2],
     [("coop/hen.jpg",
       Coco.interpret
         [Coco.Detection "bird" 0.873%float [120; 200; 180; 240]%float;
          Coco.Detection "bird" 0.765%float [350; 150; 160; 220]%float;
          Coco.Detection "person" 0.652%float [10; 20; 90; 300]%float] 4 3)])
  ∧ Spec.totalPositive_generic
      ((λ p, snd (Coco.processImage Examples.world Examples.coco_detector p))
         <$> ["coop/hen.jpg"]) = 1.
Proof.
  unfold Coco.processMultipleImages, Spec.totalPositive_generic.
  cbn [foldl fmap list_fmap Coco.batch_step]. unfold Coco.processImage.
  rewrite CocoRun.detect_unfold. split; reflexivity.
Qed.

(** C2 (as the code has it): the list [processMultipleImages] returns holds
    the paths whose processing gave a result, each with its result, in input
    order; a path that failed has no entry.  Every path is attempted, in
    order: each prints its report or its error before the summary. *)
Theorem C2_batch_results :
  (∀ W this imagePaths,
      snd (Coco.processMultipleImages W this imagePaths) =
        omap (λ p, pair p <$> snd (Coco.processImage W this p)) imagePaths
      ∧ sublist (fst <$> snd (Coco.processMultipleImages W this imagePaths))
                imagePaths
      ∧ fst (Coco.processMultipleImages W this imagePaths) =
          Processing (length imagePaths)
          :: ((λ p, match Coco.detectChickens W this p with
                    | inr r => Displayed p r
                    | inl e => ErrorProcessingImage e
                    end) <$> imagePaths)
          ++ [BatchSummary
                (length (snd (Coco.processMultipleImages W this imagePaths)))
                (sum_list_with (Coco.birdDetections ∘ snd)
                   (snd (Coco.processMultipleImages W this imagePaths)))])
  ∧ (∀ classes chicken W this imagePaths,
      snd (Teachable.processMultipleImages classes chicken W this imagePaths) =
        omap (λ p, pair p <$> snd (Teachable.processImage classes chicken W this p))
             imagePaths
      ∧ sublist
          (fst <$> snd (Teachable.processMultipleImages classes chicken W this
                          imagePaths))
          imagePaths
      ∧ fst (Teachable.processMultipleImages classes chicken W this imagePaths) =
          Processing (length imagePaths)
          :: ((λ p, match Teachable.detectChickens classes chicken W this p with
                    | inr r => Displayed p r
                    | inl e => ErrorProcessingImage e
                    end) <$> imagePaths)
          ++ [BatchSummary
                (length (snd (Teachable.processMultipleImages classes chicken W
                                this imagePaths)))
                (length (List.filter (Teachable.isChicken ∘ snd)
                   (snd (Teachable.processMultipleImages classes chicken W
                           this imagePaths))))]).
Proof.
  split.
  - intros W this imagePaths. rewrite processMultipleImages_eq.
    cbn [fst snd]. split; [done|]. split; [apply omap_paths_sublist|].
    by rewrite printed_eq.
  - intros classes chicken W this imagePaths.
    rewrite processMultipleImages_binary_eq.
    cbn [fst snd]. split; [done|]. split; [apply omap_paths_sublist|].
    by rewrite reported_eq.
Qed.

(** C2 as the specification words it fails: of two paths, the first of which
    does not decode, the returned list has one entry, for the second. *)
Lemma C2_counterexample :
  snd (Coco.processImage Examples.world Examples.coco_detector "coop/broken.PNG")
    = None
  ∧ fst <$> snd (Coco.processMultipleImages Examples.world Examples.coco_detector
                   ["coop/broken.PNG"; "coop/hen.jpg"])
    = ["coop/hen.jpg"]
  ∧ length (snd (Coco.processMultipleImages Examples.world Examples.coco_detector
                   ["coop/broken.PNG"; "coop/hen.jpg"])) = 1
  ∧ length ["coop/broken.PNG"; "coop/hen.jpg"] = 2.
Proof.
  rewrite processMultipleImages_eq. unfold processed, Coco.processImage.
  cbn [omap list_omap fst snd].
  rewrite !CocoRun.detect_unfold. repeat split; reflexivity.
Qed.

End BatchClaims.

(** ** The tensor built from a bitmap *)
Module TensorBuilder.
Import Pipeline.

Lemma foldl_ext_in {A B} (f g : A → B → A) (l : list B) (a : A) :
  (∀ a x, x ∈ l → f a x = g a x) → foldl f a l = foldl g a l.
Proof.
  revert a. induction l as [|x l IH]; intros a H; [done|]. simpl.
  rewrite H by (by left). apply IH. intros a' y Hy. apply H. by right.
Qed.

Lemma foldl_seq_from {A} (f : A → nat → A) (a : A) (start n : nat) :
  foldl f a (seq start n) = foldl (λ a x, f a (start + x)) a (seq 0 n).
Proof.
  induction n as [|n IH]; [done|].
  by rewrite !seq_S, !foldl_app, IH.
Qed.

(** [scan] visits the pixels in row-major order: pixel [k] is column
    [k mod width] of row [k / width], at byte [4 k]. *)
Lemma scan_row_major {St} (w h : nat) (f : nat → nat → nat → St → St) (s : St) :
  Jimp.scan w w h f s =
  foldl (λ s k, f (k mod w) (k / w) (k * 4) s) s (seq 0 (h * w)).
Proof.
  unfold Jimp.scan. induction h as [|h IH]; [done|].
  replace (S h * w) with (h * w + w) by lia.
  rewrite seq_S, foldl_app, IH. cbn [foldl].
  rewrite seq_app, foldl_app. cbn [Nat.add].
  rewrite (foldl_seq_from _ _ (h * w) w).
  apply foldl_ext_in. intros a x Hx%elem_of_seq.
  assert (w ≠ 0) by lia.
  replace ((h * w + x) mod w) with x
    by (apply Nat.mod_unique with h; lia).
  replace ((h * w + x) / w) with h
    by (apply Nat.div_unique with x; lia).
  by replace (w * h + x) with (h * w + x) by lia.
Qed.

Lemma store_at (seen : list float) (x : float) (rest : list float) (v : float) :
  JS.f32_store (seen ++ x :: rest) (length seen) v = seen ++ JS.fround v :: rest.
Proof.
  unfold JS.f32_store. induction seen as [|y seen IH]; [done|].
  simpl. by rewrite IH.
Qed.

Lemma store_next (seen : list float) (y x : float) (rest : list float) (v : float) :
  JS.f32_store (seen ++ y :: x :: rest) (S (length seen)) v
  = seen ++ y :: JS.fround v :: rest.
Proof.
  unfold JS.f32_store. induction seen as [|z seen IH]; [done|].
  simpl. by rewrite IH.
Qed.

Lemma store_third (seen : list float) (y1 y2 x : float) (rest : list float)
    (v : float) :
  JS.f32_store (seen ++ y1 :: y2 :: x :: rest) (S (S (length seen))) v
  = seen ++ y1 :: y2 :: JS.fround v :: rest.
Proof.
  unfold JS.f32_store. induction seen as [|z seen IH]; [done|].
  simpl. by rewrite IH.
Qed.

(** One call of the callback on the next pixel. *)
Lemma put_rgb_next (data : list byte) x y k (seen rest : list float) (a b c : float) :
  put_rgb data x y (k * 4) (seen ++ a :: b :: c :: rest, length seen) =
  (seen ++ JS.fround (JS.div255 (data !! (k * 4)))
        :: JS.fround (JS.div255 (data !! (k * 4 + 1)))
        :: JS.fround (JS.div255 (data !! (k * 4 + 2))) :: rest,
   length seen + 3).
Proof.
  unfold put_rgb. rewrite Nat.add_0_r, store_at, store_next, store_third.
  f_equal. lia.
Qed.

Lemma drop_four (data : list byte) (n : nat) :
  n + 4 ≤ length data →
  ∃ r g b a,
    drop n data = r :: g :: b :: a :: drop (n + 4) data
    ∧ data !! n = Some r ∧ data !! (n + 1) = Some g ∧ data !! (n + 2) = Some b.
Proof.
  intros Hlen.
  assert (Hd : length (drop n data) = length data - n) by apply length_drop.
  assert (Hdd : drop 4 (drop n data) = drop (n + 4) data) by apply drop_drop.
  destruct (drop n data) as [|r [|g [|b [|a rest]]]] eqn:E; simpl in Hd; try lia.
  exists r, g, b, a. rewrite <- Hdd. split; [done|].
  pose proof (lookup_drop data n 0) as H0.
  pose proof (lookup_drop data n 1) as H1.
  pose proof (lookup_drop data n 2) as H2.
  rewrite E in H0, H1, H2. simpl in H0, H1, H2.
  rewrite Nat.add_0_r in H0. by rewrite <- H0, <- H1, <- H2.
Qed.

(** The loop invariant: after the pixels before [k0], the array holds their
    normalized colours followed by zeros, and [pixelIndex] points past
    them. *)
Lemma fill (w : nat) (data : list byte) (n k0 extra : nat) (seen : list float) :
  (k0 + n) * 4 ≤ length data →
  foldl (λ st k, put_rgb data (k mod w) (k / w) (k * 4) st)
        (seen ++ replicate (n * 3 + extra) 0%float, length seen) (seq k0 n)
  = (seen ++ Spec.rgb_normalized (take (n * 4) (drop (k0 * 4) data))
          ++ replicate extra 0%float,
     length seen + n * 3).
Proof.
  revert k0 seen. induction n as [|n IH]; intros k0 seen Hlen.
  - simpl. by rewrite Nat.add_0_r.
  - destruct (drop_four data (k0 * 4)) as (r & g & b & a & Hd & Hr & Hg & Hb);
      [lia|].
    cbn [seq foldl].
    replace (S n * 3 + extra) with (S (S (S (n * 3 + extra)))) by lia.
    cbn [replicate]. rewrite put_rgb_next, Hr, Hg, Hb.
    set (v1 := JS.fround (JS.div255 (Some r))).
    set (v2 := JS.fround (JS.div255 (Some g))).
    set (v3 := JS.fround (JS.div255 (Some b))).
    replace (seen ++ v1 :: v2 :: v3 :: replicate (n * 3 + extra) 0%float)
      with ((seen ++ [v1; v2; v3]) ++ replicate (n * 3 + extra) 0%float)
      by (by rewrite <- app_assoc).
    replace (length seen + 3) with (length (seen ++ [v1; v2; v3]))
      by (rewrite length_app; simpl; lia).
    rewrite IH by lia. rewrite Hd.
    replace (k0 * 4 + 4) with (S k0 * 4) by lia.
    replace (S n * 4) with (S (S (S (S (n * 4))))) by lia.
    cbn [take Spec.rgb_normalized]. fold v1 v2 v3.
    rewrite <- !app_assoc, length_app. cbn [app length]. f_equal. lia.
Qed.

Lemma imageArray_eq (b : Jimp.bitmap) :
  Jimp.width b * Jimp.height b * 4 ≤ length (Jimp.data b) →
  imageArray b =
  Spec.rgb_normalized (take (Jimp.width b * Jimp.height b * 4) (Jimp.data b)).
Proof.
  intros Hlen. unfold imageArray, JS.Float32Array.
  rewrite scan_row_major.
  pose proof (fill (Jimp.width b) (Jimp.data b)
                (Jimp.height b * Jimp.width b) 0 0 []) as H.
  simpl in H. rewrite Nat.add_0_r, app_nil_r in H.
  replace (Jimp.width b * Jimp.height b * 3)
    with (Jimp.height b * Jimp.width b * 3) by lia.
  rewrite H by lia. simpl.
  by replace (Jimp.height b * Jimp.width b * 4)
    with (Jimp.width b * Jimp.height b * 4) by lia.
Qed.

Lemma put_rgb_length data x y idx st :
  length (fst (put_rgb data x y idx st)) = length (fst st).
Proof.
  destruct st as [arr i]. unfold put_rgb, JS.f32_store. simpl.
  by rewrite !length_insert.
Qed.

Lemma imageArray_length (b : Jimp.bitmap) :
  length (imageArray b) = Jimp.height b * Jimp.width b * 3.
Proof.
  unfold imageArray. rewrite scan_row_major.
  assert (H : ∀ l st,
    length (fst (foldl (λ st k, put_rgb (Jimp.data b) (k mod Jimp.width b)
                                   (k / Jimp.width b) (k * 4) st) st l))
    = length (fst st)).
  { induction l as [|k l IH]; intros st; [done|]. simpl.
    by rewrite IH, put_rgb_length. }
  rewrite H. simpl. unfold JS.Float32Array. rewrite length_replicate. lia.
Qed.

(** A byte divided by 255 and rounded to binary32 lies between 0 and 1. *)
Lemma byte_unit (b : byte) :
  PrimFloat.leb 0%float (JS.fround (JS.div255 (Some b))) = true
  ∧ PrimFloat.leb (JS.fround (JS.div255 (Some b))) 1%float = true.
Proof. destruct b; split; vm_compute; reflexivity. Qed.

Lemma rgb_normalized_unit (data : list byte) :
  Forall (λ v, PrimFloat.leb 0%float v = true ∧ PrimFloat.leb v 1%float = true)
         (Spec.rgb_normalized data).
Proof.
  assert (H : ∀ n (l : list byte), length l ≤ n →
    Forall (λ v, PrimFloat.leb 0%float v = true ∧ PrimFloat.leb v 1%float = true)
           (Spec.rgb_normalized l)).
  { induction n as [|n IH]; intros [|r [|g [|b [|a rest]]]] Hl;
      cbn [Spec.rgb_normalized]; try constructor; simpl in Hl; try lia.
    - apply byte_unit.
    - constructor; [apply byte_unit|]. constructor; [apply byte_unit|].
      apply IH. lia. }
  by apply (H (length data)).
Qed.

Lemma rgb_normalized_lookup (k : nat) (data : list byte) (c : nat) :
  c < 3 → k * 4 + 4 ≤ length data →
  Spec.rgb_normalized data !! (k * 3 + c)
  = Some (JS.fround (JS.div255 (data !! (k * 4 + c)))).
Proof.
  revert data. induction k as [|k IH]; intros [|r [|g [|b [|a rest]]]] Hc Hl;
    simpl in Hl; try lia.
  - destruct c as [|[|[|c]]]; try lia; reflexivity.
  - replace (S k * 3 + c) with (S (S (S (k * 3 + c)))) by lia.
    replace (S k * 4 + c) with (S (S (S (S (k * 4 + c))))) by lia.
    cbn [Spec.rgb_normalized]. rewrite !lookup_cons_ne_0 by lia.
    cbn [pred]. apply IH; [done|lia].
Qed.

(** C5: for a bitmap whose buffer holds its [width * height] RGBA pixels,
    the array built for the tensor has [height * width * 3] elements; it is
    the red, green and blue bytes of the pixels, row by row, each divided by
    255 (and stored as a binary32), the alpha bytes dropped; every element
    lies between 0 and 1. *)
Theorem C5_tensor (b : Jimp.bitmap)
    (Hvalid : Jimp.width b * Jimp.height b * 4 ≤ length (Jimp.data b)) :
  length (imageArray b) = Jimp.height b * Jimp.width b * 3
  ∧ imageArray b =
      Spec.rgb_normalized
        (take (Jimp.width b * Jimp.height b * 4) (Jimp.data b))
  ∧ (∀ x y c, x < Jimp.width b → y < Jimp.height b → c < 3 →
       ∃ byte,
         Jimp.data b !! ((y * Jimp.width b + x) * 4 + c) = Some byte
         ∧ imageArray b !! ((y * Jimp.width b + x) * 3 + c)
           = Some (JS.fround (PrimFloat.div (JS.of_byte byte) 255%float)))
  ∧ Forall (λ v, PrimFloat.leb 0%float v = true ∧ PrimFloat.leb v 1%float = true)
           (imageArray b).
Proof.
  split; [apply imageArray_length|].
  rewrite (imageArray_eq b Hvalid).
  split; [done|]. split; [|apply rgb_normalized_unit].
  intros x y c Hx Hy Hc.
  assert (Hk : (y * Jimp.width b + x) * 4 + 4 ≤ Jimp.width b * Jimp.height b * 4)
    by nia.
  destruct (lookup_lt_is_Some_2 (Jimp.data b) ((y * Jimp.width b + x) * 4 + c))
    as [byte Hbyte]; [lia|].
  exists byte. split; [done|].
  rewrite rgb_normalized_lookup; [|done|rewrite length_take; lia].
  rewrite lookup_take_lt by lia. by rewrite Hbyte.
Qed.

Lemma C5_tensor_witness :
  Jimp.width Examples.hen * Jimp.height Examples.hen * 4
    ≤ length (Jimp.data Examples.hen)
  ∧ length (imageArray Examples.hen) = 3 * 4 * 3
  ∧ imageArray Examples.hen =
      Spec.rgb_normalized (take (4 * 3 * 4) (Jimp.data Examples.hen))
  ∧ Forall (λ v, PrimFloat.leb 0%float v = true ∧ PrimFloat.leb v 1%float = true)
           (imageArray Examples.hen).
Proof.
  assert (H : Jimp.width Examples.hen * Jimp.height Examples.hen * 4
              ≤ length (Jimp.data Examples.hen)) by (vm_compute; lia).
  split; [exact H|].
  destruct (C5_tensor Examples.hen H) as (Hlen & Heq & _ & Hunit).
  split; [exact Hlen|]. split; [exact Heq|]. exact Hunit.
Defined.

(** The bitmap [resize] leaves behind is such a bitmap, whatever the
    interpolation. *)
Lemma resample_valid kernel (b : Jimp.bitmap) (w h : nat) :
  Jimp.width (Jimp.resample kernel b w h) * Jimp.height (Jimp.resample kernel b w h) * 4
  ≤ length (Jimp.data (Jimp.resample kernel b w h)).
Proof. simpl. by rewrite length_fmap, length_seq. Qed.

Example hen_first_pixel :
  take 3 (imageArray Examples.hen) =
    [JS.fround (200 / 255)%float; JS.fround (150 / 255)%float;
     JS.fround (50 / 255)%float].
Proof. vm_compute. reflexivity. Qed.

End TensorBuilder.

(** ** The image file filter of [main] *)
Module ImageFiles.
Import Pipeline Notions.

Local Arguments Ascii.eqb : simpl never.

(** Without the [i] flag the expression accepts, from a given position to
    the end of the name, exactly the five extensions. *)
Lemma exact_extensions (u : string) :
  RegExp.matches_at false image_re u = existsb (String.eqb u) Spec.extensions.
Proof.
  unfold RegExp.matches_at, image_re, Spec.extensions.
  destruct u as [|a0 [|a1 [|a2 [|a3 [|a4 [|a5 u]]]]]];
    cbn -[Ascii.eqb];
    repeat match goal with
    | |- context [Ascii.eqb ?a ?c] =>
        destruct (Ascii.eqb_spec a c); [subst|]; try congruence; cbn -[Ascii.eqb]
    end; try reflexivity.
Qed.

(** Upper-casing for the comparison and lower-casing identify the same
    characters. *)
Lemma lower_canonicalize (a : ascii) :
  Spec.to_lower (RegExp.canonicalize a) = Spec.to_lower a.
Proof. destruct a as [[] [] [] [] [] [] [] []]; reflexivity. Qed.

Lemma canonicalize_lower (a : ascii) :
  RegExp.canonicalize (Spec.to_lower a) = RegExp.canonicalize a.
Proof. destruct a as [[] [] [] [] [] [] [] []]; reflexivity. Qed.

Lemma char_matches_lower (c a : ascii) :
  Spec.to_lower c = c →
  RegExp.char_matches true c a = RegExp.char_matches false c (Spec.to_lower a).
Proof.
  intros Hc. unfold RegExp.char_matches.
  destruct (Ascii.eqb_spec (RegExp.canonicalize a) (RegExp.canonicalize c)) as [E|E];
    destruct (Ascii.eqb_spec (Spec.to_lower a) c) as [E'|E']; try done.
  - exfalso. apply E'.
    by rewrite <- (lower_canonicalize a), E, lower_canonicalize.
  - exfalso. apply E.
    by rewrite <- (canonicalize_lower a), E'.
Qed.

Lemma run_lower (r : RegExp.re) (s : string) :
  lower_case r →
  Spec.lower <$> RegExp.run true r s = RegExp.run false r (Spec.lower s).
Proof.
  revert s. induction r as [c|r1 IH1 r2 IH2|r1 IH1 r2 IH2|r1 IH1|];
    intros s Hr; cbn [RegExp.run].
  - destruct s as [|a s]; [done|]. cbn [Spec.lower].
    rewrite (char_matches_lower c a Hr).
    by destruct (RegExp.char_matches false c (Spec.to_lower a)).
  - destruct Hr as [H1 H2]. rewrite <- (IH1 s H1).
    generalize (RegExp.run true r1 s) as l.
    induction l as [|x l IHl]; [done|].
    rewrite fmap_cons, !bind_cons, fmap_app, IHl. by rewrite (IH2 x H2).
  - destruct Hr as [H1 H2]. by rewrite fmap_app, IH1, IH2.
  - by rewrite fmap_app, IH1.
  - by destruct s.
Qed.

Lemma matches_at_lower (r : RegExp.re) (s : string) :
  lower_case r →
  RegExp.matches_at true r s = RegExp.matches_at false r (Spec.lower s).
Proof.
  intros Hr. unfold RegExp.matches_at. rewrite <- (run_lower r s Hr).
  by destruct (RegExp.run true r s).
Qed.

Lemma image_re_lower_case : lower_case image_re.
Proof. cbn. repeat split. Qed.

(** [test] succeeds when the expression matches at some position. *)
Lemma test_somewhere (i : bool) (r : RegExp.re) (s : string) :
  RegExp.test i r s = true ↔
  ∃ stem rest, s = stem +:+ rest ∧ RegExp.matches_at i r rest = true.
Proof.
  induction s as [|a s IH]; cbn [RegExp.test].
  - rewrite orb_false_r. split.
    + intros H. by exists EmptyString, EmptyString.
    + intros (stem & rest & Hs & H). by destruct stem, rest.
  - rewrite orb_true_iff, IH. split.
    + intros [H|(stem & rest & -> & H)].
      * by exists EmptyString, (String a s).
      * by exists (String a stem), rest.
    + intros ([|b stem] & rest & Hs & H).
      * left. change (String a s = rest) in Hs. by subst rest.
      * right. change (String a s = String b (stem +:+ rest)) in Hs.
        injection Hs as -> ->. by exists stem, rest.
Qed.

Lemma lower_app (s t : string) :
  Spec.lower (s +:+ t) = Spec.lower s +:+ Spec.lower t.
Proof. induction s as [|a s IH]; [done|]. simpl. by rewrite IH. Qed.

Lemma lower_split (s u v : string) :
  Spec.lower s = u +:+ v →
  ∃ s1 s2, s = s1 +:+ s2 ∧ Spec.lower s1 = u ∧ Spec.lower s2 = v.
Proof.
  revert s. induction u as [|a u IH]; intros s H.
  - by exists EmptyString, s.
  - destruct s as [|b s]; [done|]. simpl in H. injection H as Ha Hs.
    destruct (IH s Hs) as (s1 & s2 & -> & H1 & H2).
    exists (String b s1), s2. simpl. by rewrite Ha, H1.
Qed.

Lemma is_image_file_spec (name : string) :
  is_image_file name = true ↔ Spec.has_image_extension name.
Proof.
  unfold is_image_file, Spec.has_image_extension.
  rewrite test_somewhere. split.
  - intros (stem & rest & -> & H).
    rewrite (matches_at_lower _ _ image_re_lower_case), exact_extensions in H.
    apply existsb_exists in H as (ext & Hin & Heq).
    apply String.eqb_eq in Heq. subst ext.
    exists (Spec.lower rest), (Spec.lower stem).
    split; [by apply list_elem_of_In|apply lower_app].
  - intros (ext & stem & Hin & H).
    destruct (lower_split _ _ _ H) as (s1 & s2 & -> & _ & H2).
    exists s1, s2. split; [done|].
    rewrite (matches_at_lower _ _ image_re_lower_case), exact_extensions.
    apply existsb_exists. exists ext.
    split; [by apply list_elem_of_In|]. by apply String.eqb_eq.
Qed.

End ImageFiles.

(** ** [main] on a directory *)
Module Directory.
Import Pipeline.

Lemma coco_image_files W dir entries :
  Coco.image_files W dir entries = join W dir <$> List.filter is_image_file entries.
Proof. unfold Coco.image_files. by rewrite Arrays.filter_eq. Qed.

Lemma teachable_image_files W dir entries :
  Teachable.image_files W dir entries
  = join W dir <$> List.filter is_image_file entries.
Proof. unfold Teachable.image_files. by rewrite Arrays.filter_eq. Qed.

Lemma coco_main_directory W m dir entries :
  dir ≠ EmptyString →
  lstatSync W dir = inr true →
  readdirSync W dir = inr entries →
  Coco.main W (inr m) (Some dir) =
    match List.filter is_image_file entries with
    | [] => [NoImageFilesFound]
    | _ => fst (Coco.processMultipleImages W {| Coco.model := Some m |}
                  (join W dir <$> List.filter is_image_file entries))
    end.
Proof.
  intros Hdir Hstat Hread. unfold Coco.main.
  destruct dir as [|a dir]; [done|].
  rewrite Hstat, Hread, coco_image_files. cbv zeta.
  destruct (List.filter is_image_file entries) as [|file files]; [done|].
  by case_decide.
Qed.

Lemma teachable_main_directory classes chicken W m dir argv3 entries :
  dir ≠ EmptyString →
  lstatSync W dir = inr true →
  readdirSync W dir = inr entries →
  Teachable.main classes chicken W (inr m) (Some dir) argv3 =
    match List.filter is_image_file entries with
    | [] => [NoImageFilesFound]
    | _ => fst (Teachable.processMultipleImages classes chicken W
                  {| Teachable.model := Some m;
                     Teachable.modelUrl := JS.or_else argv3 "./model/model.json" |}
                  (join W dir <$> List.filter is_image_file entries))
    end.
Proof.
  intros Hdir Hstat Hread. unfold Teachable.main.
  destruct dir as [|a dir]; [done|].
  rewrite Hstat, Hread, teachable_image_files. cbv zeta.
  destruct (List.filter is_image_file entries) as [|file files]; [done|].
  by case_decide.
Qed.

(** C8: on a directory, the files processed are the entries whose name ends,
    whatever the case of its letters, in .jpg, .jpeg, .png, .bmp or .gif,
    joined to the directory, in the order of the listing: each is attempted
    in that order.  When no entry qualifies nothing is processed and the
    only line printed says that no image file was found. *)
Theorem C8_directory_filter :
  (∀ name, is_image_file name = true ↔ Spec.has_image_extension name)
  ∧ (∀ W dir entries,
       Coco.image_files W dir entries
         = join W dir <$> List.filter is_image_file entries
       ∧ Teachable.image_files W dir entries
         = join W dir <$> List.filter is_image_file entries)
  ∧ (∀ W m dir entries,
       dir ≠ EmptyString →
       lstatSync W dir = inr true →
       readdirSync W dir = inr entries →
       (List.filter is_image_file entries = [] →
        Coco.main W (inr m) (Some dir) = [NoImageFilesFound])
       ∧ (List.filter is_image_file entries ≠ [] →
          ∃ processed totalChickens,
            Coco.main W (inr m) (Some dir) =
              Processing (length (List.filter is_image_file entries))
              :: ((λ p, match Coco.detectChickens W {| Coco.model := Some m |} p with
                        | inr r => Displayed p r
                        | inl e => ErrorProcessingImage e
                        end)
                    <$> (join W dir <$> List.filter is_image_file entries))
              ++ [BatchSummary processed totalChickens]))
  ∧ (∀ classes chicken W m dir argv3 entries,
       dir ≠ EmptyString →
       lstatSync W dir = inr true →
       readdirSync W dir = inr entries →
       (List.filter is_image_file entries = [] →
        Teachable.main classes chicken W (inr m) (Some dir) argv3
          = [NoImageFilesFound])
       ∧ (List.filter is_image_file entries ≠ [] →
          ∃ processed totalChickens,
            Teachable.main classes chicken W (inr m) (Some dir) argv3 =
              Processing (length (List.filter is_image_file entries))
              :: ((λ p, match Teachable.detectChickens classes chicken W
                                {| Teachable.model := Some m;
                                   Teachable.modelUrl :=
                                     JS.or_else argv3 "./model/model.json" |} p with
                        | inr r => Displayed p r
                        | inl e => ErrorProcessingImage e
                        end)
                    <$> (join W dir <$> List.filter is_image_file entries))
              ++ [BatchSummary processed totalChickens])).
Proof.
  split; [apply ImageFiles.is_image_file_spec|].
  split; [intros; split; [apply coco_image_files|apply teachable_image_files]|].
  split.
  - intros W m dir entries Hdir Hstat Hread.
    rewrite (coco_main_directory W m dir entries Hdir Hstat Hread).
    split; [by intros ->|]. intros Hne.
    destruct (List.filter is_image_file entries) as [|file files] eqn:E; [done|].
    rewrite Batch.processMultipleImages_eq, Batch.printed_eq.
    cbn [fst]. rewrite length_fmap. by do 2 eexists.
  - intros classes chicken W m dir argv3 entries Hdir Hstat Hread.
    rewrite (teachable_main_directory classes chicken W m dir argv3 entries
               Hdir Hstat Hread).
    split; [by intros ->|]. intros Hne.
    destruct (List.filter is_image_file entries) as [|file files] eqn:E; [done|].
    rewrite Batch.processMultipleImages_binary_eq, Batch.reported_eq.
    cbn [fst]. rewrite length_fmap. by do 2 eexists.
Qed.

Example coop_listing :
  List.filter is_image_file ["hen.jpg"; "notes.txt"; "broken.PNG"; "egg.JpEg";
                             "jpg"; "a.gif.bak"; ".bmp"; "x.giff"]
  = ["hen.jpg"; "broken.PNG"; "egg.JpEg"; ".bmp"].
Proof. vm_compute. reflexivity. Qed.

Lemma C8_directory_filter_witness :
  "coop" ≠ EmptyString
  ∧ lstatSync Examples.world "coop" = inr true
  ∧ readdirSync Examples.world "coop"
    = inr ["hen.jpg"; "notes.txt"; "broken.PNG"]
  ∧ List.filter is_image_file ["hen.jpg"; "notes.txt"; "broken.PNG"] ≠ []
  ∧ (∃ processed totalChickens,
       Coco.main Examples.world (inr Examples.coco_model) (Some "coop") =
         Processing (length (List.filter is_image_file
                               ["hen.jpg"; "notes.txt"; "broken.PNG"]))
         :: ((λ p, match Coco.detectChickens Examples.world
                           {| Coco.model := Some Examples.coco_model |} p with
                   | inr r => Displayed p r
                   | inl e => ErrorProcessingImage e
                   end)
               <$> (join Examples.world "coop"
                      <$> List.filter is_image_file
                            ["hen.jpg"; "notes.txt"; "broken.PNG"]))
         ++ [BatchSummary processed totalChickens])
  ∧ "empty" ≠ EmptyString
  ∧ lstatSync Examples.world "empty" = inr true
  ∧ readdirSync Examples.world "empty" = inr ["notes.txt"; "jpg"]
  ∧ List.filter is_image_file ["notes.txt"; "jpg"] = []
  ∧ Coco.main Examples.world (inr Examples.coco_model) (Some "empty")
    = [NoImageFilesFound].
Proof.
  assert (H1 : "coop" ≠ EmptyString) by discriminate.
  assert (H2 : List.filter is_image_file ["hen.jpg"; "notes.txt"; "broken.PNG"] ≠ [])
    by (vm_compute; discriminate).
  assert (H3 : "empty" ≠ EmptyString) by discriminate.
  assert (H4 : List.filter is_image_file ["notes.txt"; "jpg"] = [])
    by (vm_compute; reflexivity).
  split; [exact H1|]. split; [reflexivity|]. split; [reflexivity|].
  split; [exact H2|]. split.
  - exact (proj2 (proj1 (proj2 (proj2 C8_directory_filter)) Examples.world
             Examples.coco_model "coop" _ H1 eq_refl eq_refl) H2).
  - split; [exact H3|]. split; [reflexivity|]. split; [reflexivity|].
    split; [exact H4|].
    exact (proj1 (proj1 (proj2 (proj2 C8_directory_filter)) Examples.world
             Examples.coco_model "empty" _ H3 eq_refl eq_refl) H4).
Defined.

End Directory.

(** ** Failures and results of a single call *)
Module Calls.
Import Pipeline Lifecycle.

(** X1: [detectChickens] of the detector returns a result only for a loaded
    model, an existing file that decodes and a successful inference; the
    result then carries the model's predictions unchanged, the counts of the
    two lists, and the width and height of the image as decoded. *)
Theorem detector_result W this imagePath r
    (Hrun : Coco.detectChickens W this imagePath = inr r) :
  ∃ detect bitmap,
    Coco.model this = Some detect
    ∧ existsSync W imagePath = true
    ∧ read W imagePath = inr bitmap
    ∧ detect (Tensor (imageArray bitmap)
                [Jimp.height bitmap; Jimp.width bitmap; 3])
      = inr (Coco.allPredictions r)
    ∧ Coco.imageSize r = (Jimp.width bitmap, Jimp.height bitmap)
    ∧ Coco.totalDetections r = length (Coco.allPredictions r)
    ∧ Coco.birdDetections r = length (Coco.birdPredictions r)
    ∧ Coco.birdPredictions r = List.filter Coco.is_bird (Coco.allPredictions r).
Proof.
  rewrite CocoRun.detect_unfold in Hrun.
  destruct (Coco.model this) as [detect|]; [|done].
  destruct (existsSync W imagePath); [|done].
  destruct (read W imagePath) as [?|bitmap]; [done|].
  destruct (detect _) as [?|predictions] eqn:Hd; [done|].
  injection Hrun as <-. exists detect, bitmap.
  cbn [Coco.interpret Coco.allPredictions Coco.imageSize Coco.totalDetections
       Coco.birdDetections Coco.birdPredictions].
  by rewrite Arrays.filter_eq.
Qed.

Lemma detector_result_witness :
  ∃ detect bitmap,
    Coco.model Examples.coco_detector = Some detect
    ∧ existsSync Examples.world "coop/hen.jpg" = true
    ∧ read Examples.world "coop/hen.jpg" = inr bitmap
    ∧ Jimp.width bitmap = 4.
Proof.
  assert (H : ∃ r, Coco.detectChickens Examples.world Examples.coco_detector
                     "coop/hen.jpg" = inr r).
  { rewrite CocoRun.detect_unfold. by eexists. }
  destruct H as [r Hr].
  destruct (detector_result _ _ _ _ Hr)
    as (detect & bitmap & Hm & He & Hread & _).
  exists detect, bitmap. split; [exact Hm|]. split; [exact He|].
  split; [exact Hread|]. simpl in Hread. by injection Hread as <-.
Defined.

(** X2: a detector that has not loaded its model fails every call with
    "Model not loaded", whether the file exists or not, so a batch over it
    prints one error per path, returns no result and sums up to 0 of 0. *)
Theorem unloaded_detector :
  (∀ W imagePath,
      Coco.detectChickens W new_ChickenDetector imagePath = inl JS.ModelNotLoaded)
  ∧ (∀ classes chicken W modelUrl imagePath,
      Teachable.detectChickens classes chicken W
        (new_TeachableChickenDetector modelUrl) imagePath
      = inl JS.ModelNotLoaded)
  ∧ (∀ W imagePaths,
      Coco.processMultipleImages W new_ChickenDetector imagePaths
      = (Processing (length imagePaths)
           :: ((λ _, ErrorProcessingImage JS.ModelNotLoaded) <$> imagePaths)
           ++ [BatchSummary 0 0], []))
  ∧ (∀ classes chicken W modelUrl imagePaths,
      Teachable.processMultipleImages classes chicken W
        (new_TeachableChickenDetector modelUrl) imagePaths
      = (Processing (length imagePaths)
           :: ((λ _, ErrorProcessingImage JS.ModelNotLoaded) <$> imagePaths)
           ++ [BatchSummary 0 0], [])).
Proof.
  assert (H1 : ∀ W imagePath,
    Coco.detectChickens W new_ChickenDetector imagePath = inl JS.ModelNotLoaded)
    by (intros; by rewrite CocoRun.detect_unfold).
  assert (H2 : ∀ classes chicken W modelUrl imagePath,
    Teachable.detectChickens classes chicken W
      (new_TeachableChickenDetector modelUrl) imagePath = inl JS.ModelNotLoaded)
    by (intros; by rewrite TeachableRun.classify_unfold).
  split; [exact H1|]. split; [exact H2|]. split.
  - intros W imagePaths.
    rewrite Batch.processMultipleImages_eq, Batch.printed_eq.
    assert (Hp : Notions.processed W new_ChickenDetector imagePaths = []).
    { unfold Notions.processed.
      induction imagePaths as [|p l IH]; [done|]. cbn [omap list_omap].
      unfold Coco.processImage at 1. by rewrite H1. }
    rewrite Hp. cbn [length Notions.birds sum_list_with].
    rewrite (list_fmap_ext _ (λ _, ErrorProcessingImage JS.ModelNotLoaded) imagePaths);
      [done|]. intros _ p _. by rewrite H1.
  - intros classes chicken W modelUrl imagePaths.
    rewrite Batch.processMultipleImages_binary_eq, Batch.reported_eq.
    assert (Hp : Notions.classified classes chicken W
                   (new_TeachableChickenDetector modelUrl) imagePaths = []).
    { unfold Notions.classified.
      induction imagePaths as [|p l IH]; [done|]. cbn [omap list_omap].
      unfold Teachable.processImage at 1. by rewrite H2. }
    rewrite Hp. cbn [length Notions.chickens List.filter].
    rewrite (list_fmap_ext _ (λ _, ErrorProcessingImage JS.ModelNotLoaded) imagePaths);
      [done|]. intros _ p _. by rewrite H2.
Qed.

(** X3: with a model loaded, a path that does not exist fails with "Image
    file not found" naming the path; neither the decoder nor the model has a
    say. *)
Theorem missing_file :
  (∀ W this imagePath,
      Coco.model this ≠ None → existsSync W imagePath = false →
      Coco.detectChickens W this imagePath = inl (JS.ImageFileNotFound imagePath)
      ∧ Coco.processImage W this imagePath
        = ([ErrorProcessingImage (JS.ImageFileNotFound imagePath)], None))
  ∧ (∀ classes chicken W this imagePath,
      Teachable.model this ≠ None → existsSync W imagePath = false →
      Teachable.detectChickens classes chicken W this imagePath
        = inl (JS.ImageFileNotFound imagePath)
      ∧ Teachable.processImage classes chicken W this imagePath
        = ([ErrorProcessingImage (JS.ImageFileNotFound imagePath)], None)).
Proof.
  split.
  - intros W this imagePath Hm He. unfold Coco.processImage.
    rewrite CocoRun.detect_unfold, He.
    by destruct (Coco.model this).
  - intros classes chicken W this imagePath Hm He. unfold Teachable.processImage.
    rewrite TeachableRun.classify_unfold, He.
    by destruct (Teachable.model this).
Qed.

Lemma missing_file_witness :
  Coco.model Examples.coco_detector ≠ None
  ∧ existsSync Examples.world "coop/rooster.jpg" = false
  ∧ Coco.detectChickens Examples.world Examples.coco_detector "coop/rooster.jpg"
    = inl (JS.ImageFileNotFound "coop/rooster.jpg").
Proof.
  assert (Hm : Coco.model Examples.coco_detector ≠ None) by discriminate.
  split; [exact Hm|]. split; [reflexivity|].
  exact (proj1 (proj1 missing_file Examples.world Examples.coco_detector
                  "coop/rooster.jpg" Hm eq_refl)).
Defined.

End Calls.

(** ** More on batches *)
Module BatchAccounts.
Import Pipeline Terms.





Lemma processed_app W this (l1 l2 : list string) :
  Notions.processed W this (l1 ++ l2)
  = Notions.processed W this l1 ++ Notions.processed W this l2.
Proof. unfold Notions.processed. apply omap_app. Qed.

Lemma classified_app classes chicken W this (l1 l2 : list string) :
  Notions.classified classes chicken W this (l1 ++ l2)
  = Notions.classified classes chicken W this l1
    ++ Notions.classified classes chicken W this l2.
Proof. unfold Notions.classified. apply omap_app. Qed.

Lemma last_summary {R} (first : line R) (middle : list (line R)) (s : line R) :
  last (first :: middle ++ [s]) = Some s.
Proof. by rewrite app_comm_cons, last_snoc. Qed.

(** X5: batches compose: the results of a batch over two lists of paths, one
    after the other, are the results of the first batch followed by those of
    the second, and the two numbers of its summary are the sums of theirs. *)
Theorem batch_of_concatenation :
  (∀ W this l1 l2,
      snd (Coco.processMultipleImages W this (l1 ++ l2))
      = snd (Coco.processMultipleImages W this l1)
        ++ snd (Coco.processMultipleImages W this l2)
      ∧ ∃ n1 t1 n2 t2,
          last (fst (Coco.processMultipleImages W this l1))
            = Some (BatchSummary n1 t1)
          ∧ last (fst (Coco.processMultipleImages W this l2))
            = Some (BatchSummary n2 t2)
          ∧ last (fst (Coco.processMultipleImages W this (l1 ++ l2)))
            = Some (BatchSummary (n1 + n2) (t1 + t2)))
  ∧ (∀ classes chicken W this l1 l2,
      snd (Teachable.processMultipleImages classes chicken W this (l1 ++ l2))
      = snd (Teachable.processMultipleImages classes chicken W this l1)
        ++ snd (Teachable.processMultipleImages classes chicken W this l2)
      ∧ ∃ n1 t1 n2 t2,
          last (fst (Teachable.processMultipleImages classes chicken W this l1))
            = Some (BatchSummary n1 t1)
          ∧ last (fst (Teachable.processMultipleImages classes chicken W this l2))
            = Some (BatchSummary n2 t2)
          ∧ last (fst (Teachable.processMultipleImages classes chicken W this
                         (l1 ++ l2)))
            = Some (BatchSummary (n1 + n2) (t1 + t2))).
Proof.
  split.
  - intros W this l1 l2. rewrite !Batch.processMultipleImages_eq.
    cbn [fst snd]. rewrite !last_summary, processed_app.
    split; [done|]. do 4 eexists. split; [done|]. split; [done|].
    by rewrite length_app, Batch.birds_app.
  - intros classes chicken W this l1 l2.
    rewrite !Batch.processMultipleImages_binary_eq.
    cbn [fst snd]. rewrite !last_summary, classified_app.
    split; [done|]. do 4 eexists. split; [done|]. split; [done|].
    by rewrite length_app, Batch.chickens_app.
Qed.

End BatchAccounts.

(** ** The tensor, whatever the buffer *)
Module TensorBounds.
Import Pipeline Terms.

(** The loop invariant without any assumption on the buffer. *)
Lemma fill_any (w : nat) (data : list byte) (n k0 extra : nat) (seen : list float) :
  foldl (λ st k, put_rgb data (k mod w) (k / w) (k * 4) st)
        (seen ++ replicate (n * 3 + extra) 0%float, length seen) (seq k0 n)
  = (seen ++ (seq k0 n ≫= rgb_at data) ++ replicate extra 0%float,
     length seen + n * 3).
Proof.
  revert k0 seen. induction n as [|n IH]; intros k0 seen.
  - simpl. by rewrite Nat.add_0_r.
  - cbn [seq foldl].
    replace (S n * 3 + extra) with (S (S (S (n * 3 + extra)))) by lia.
    cbn [replicate]. rewrite TensorBuilder.put_rgb_next.
    change (seen ++ ?a :: ?b :: ?c :: replicate (n * 3 + extra) 0%float)
      with (seen ++ rgb_at data k0 ++ replicate (n * 3 + extra) 0%float).
    rewrite app_assoc.
    replace (length seen + 3) with (length (seen ++ rgb_at data k0))
      by (rewrite length_app; simpl; lia).
    rewrite IH, bind_cons, <- !app_assoc, length_app. f_equal. simpl. lia.
Qed.

Lemma imageArray_any (b : Jimp.bitmap) :
  imageArray b = seq 0 (Jimp.height b * Jimp.width b) ≫= rgb_at (Jimp.data b).
Proof.
  unfold imageArray, JS.Float32Array. rewrite TensorBuilder.scan_row_major.
  pose proof (fill_any (Jimp.width b) (Jimp.data b)
                (Jimp.height b * Jimp.width b) 0 0 []) as H.
  cbn [length app Nat.add] in H. rewrite Nat.add_0_r, app_nil_r in H.
  replace (Jimp.width b * Jimp.height b * 3)
    with (Jimp.height b * Jimp.width b * 3) by lia.
  by rewrite H.
Qed.

Lemma rgb_rows_length (data : list byte) (n : nat) :
  length (seq 0 n ≫= rgb_at data) = n * 3.
Proof.
  induction n as [|n IH]; [done|].
  rewrite seq_S, bind_app, length_app, IH. simpl. lia.
Qed.

Lemma rgb_rows_lookup (data : list byte) (n k c : nat) :
  k < n → c < 3 →
  (seq 0 n ≫= rgb_at data) !! (k * 3 + c)
  = Some (JS.fround (JS.div255 (data !! (k * 4 + c)))).
Proof.
  intros Hk Hc. induction n as [|n IH]; [lia|].
  rewrite seq_S, bind_app. cbn [Nat.add].
  destruct (decide (k < n)) as [Hlt|Hge].
  - rewrite lookup_app_l by (rewrite rgb_rows_length; lia). by apply IH.
  - assert (k = n) by lia. subst k.
    rewrite lookup_app_r by (rewrite rgb_rows_length; lia).
    rewrite rgb_rows_length.
    replace (n * 3 + c - n * 3) with c by lia.
    destruct c as [|[|[|c]]]; try lia; simpl;
      by rewrite ?Nat.add_0_r.
Qed.

(** X6: the tensor is built without any check of the buffer: for every
    bitmap, each element is the byte at its place in the buffer divided by
    255, and where the buffer is too short for the declared width and height
    the element is NaN; no error is raised and the array keeps its
    [height * width * 3] elements. *)
Theorem tensor_of_any_buffer (b : Jimp.bitmap) (x y c : nat)
    (Hx : x < Jimp.width b) (Hy : y < Jimp.height b) (Hc : c < 3) :
  length (imageArray b) = Jimp.height b * Jimp.width b * 3
  ∧ imageArray b !! ((y * Jimp.width b + x) * 3 + c)
    = Some (JS.fround
              (JS.div255 (Jimp.data b !! ((y * Jimp.width b + x) * 4 + c))))
  ∧ (length (Jimp.data b) ≤ (y * Jimp.width b + x) * 4 + c →
     imageArray b !! ((y * Jimp.width b + x) * 3 + c) = Some PrimFloat.nan).
Proof.
  split; [apply TensorBuilder.imageArray_length|].
  assert (H : imageArray b !! ((y * Jimp.width b + x) * 3 + c)
              = Some (JS.fround
                        (JS.div255
                           (Jimp.data b !! ((y * Jimp.width b + x) * 4 + c))))).
  { rewrite imageArray_any. apply rgb_rows_lookup; [nia|done]. }
  split; [exact H|]. intros Hshort. rewrite H.
  by rewrite (lookup_ge_None_2 _ _ Hshort).
Qed.

Lemma tensor_of_any_buffer_witness :
  1 < 2 ∧ 0 < 1 ∧ 1 < 3
  ∧ imageArray (Jimp.Bitmap 2 1 [x10; x20; x30; xff; x40]) !! 4
    = Some PrimFloat.nan
  ∧ length (imageArray (Jimp.Bitmap 2 1 [x10; x20; x30; xff; x40])) = 6.
Proof.
  assert (Hx : 1 < Jimp.width (Jimp.Bitmap 2 1 [x10; x20; x30; xff; x40]))
    by (simpl; lia).
  assert (Hy : 0 < Jimp.height (Jimp.Bitmap 2 1 [x10; x20; x30; xff; x40]))
    by (simpl; lia).
  assert (Hc : 1 < 3) by lia.
  split; [exact Hx|]. split; [exact Hy|]. split; [exact Hc|].
  destruct (tensor_of_any_buffer _ 1 0 1 Hx Hy Hc) as (Hlen & _ & Hnan).
  split; [|exact Hlen]. apply Hnan. simpl. lia.
Defined.

(** X7: whatever the image, the classifier's model is consulted on one
    tensor only, of shape [1, 224, 224, 3], holding 224 * 224 * 3 values all
    between 0 and 1: two models that agree on such tensors give the same
    outcome of [detectChickens], result or error. *)
Theorem classifier_model_input classes chicken W modelUrl imagePath
    (predict predict' : tensor → JS.exn + list float)
    (Hsame : ∀ t, unit_image t → predict t = predict' t) :
  Teachable.detectChickens classes chicken W
    {| Teachable.model := Some predict; Teachable.modelUrl := modelUrl |}
    imagePath
  = Teachable.detectChickens classes chicken W
      {| Teachable.model := Some predict'; Teachable.modelUrl := modelUrl |}
      imagePath.
Proof.
  rewrite !TeachableRun.classify_unfold. cbn [Teachable.model].
  destruct (existsSync W imagePath); [|done].
  destruct (read W imagePath) as [?|loaded]; [done|]. cbv zeta.
  rewrite Hsame; [done|]. split; [done|]. split.
  - exact (TensorBuilder.imageArray_length
             (Jimp.resample (kernel W) loaded 224 224)).
  - cbn [values].
    rewrite (TensorBuilder.imageArray_eq _
               (TensorBuilder.resample_valid (kernel W) loaded 224 224)).
    apply TensorBuilder.rgb_normalized_unit.
Qed.

Lemma classifier_model_input_witness :
  (∀ t, unit_image t →
        (λ _ : tensor, @inr JS.exn (list float) [0.152%float; 0.848%float]) t
        = (λ t : tensor,
             if decide (shape t = [1; 224; 224; 3])
             then inr [0.152%float; 0.848%float]
             else inl (JS.LibraryError "expected shape [null,224,224,3]")) t)
  ∧ Teachable.detectChickens Teachable.classes_en "Chicken" Examples.world
      {| Teachable.model := Some (λ _, inr [0.152%float; 0.848%float]);
         Teachable.modelUrl := "./model/model.json" |} "coop/hen.jpg"
    = Teachable.detectChickens Teachable.classes_en "Chicken" Examples.world
        {| Teachable.model :=
             Some (λ t, if decide (shape t = [1; 224; 224; 3])
                        then inr [0.152%float; 0.848%float]
                        else inl (JS.LibraryError "expected shape [null,224,224,3]"));
           Teachable.modelUrl := "./model/model.json" |} "coop/hen.jpg".
Proof.
  assert (H : ∀ t, unit_image t →
        (λ _ : tensor, @inr JS.exn (list float) [0.152%float; 0.848%float]) t
        = (λ t : tensor,
             if decide (shape t = [1; 224; 224; 3])
             then inr [0.152%float; 0.848%float]
             else inl (JS.LibraryError "expected shape [null,224,224,3]")) t).
  { intros t [Hs _]. cbn beta. by rewrite decide_True. }
  split; [exact H|].
  exact (classifier_model_input Teachable.classes_en "Chicken" Examples.world
           "./model/model.json" "coop/hen.jpg" _ _ H).
Defined.

(** X8: the detector consults its model on one tensor of shape
    [height, width, 3] with [height * width * 3] values, and when the
    decoder yields complete buffers these values lie between 0 and 1: two
    models that agree on such tensors give the same outcome. *)
Theorem detector_model_input W imagePath
    (detect detect' : tensor → JS.exn + list Coco.detection)
    (Hdecoder : ∀ p b, read W p = inr b →
                  Jimp.width b * Jimp.height b * 4 ≤ length (Jimp.data b))
    (Hsame : ∀ t, rgb_image t →
               Forall (λ v, PrimFloat.leb 0%float v = true
                            ∧ PrimFloat.leb v 1%float = true) (values t) →
               detect t = detect' t) :
  Coco.detectChickens W {| Coco.model := Some detect |} imagePath
  = Coco.detectChickens W {| Coco.model := Some detect' |} imagePath.
Proof.
  rewrite !CocoRun.detect_unfold. cbn [Coco.model].
  destruct (existsSync W imagePath); [|done].
  destruct (read W imagePath) as [?|bitmap] eqn:Hread; [done|].
  rewrite Hsame; [done| |].
  - exists (Jimp.height bitmap), (Jimp.width bitmap). split; [done|].
    apply TensorBuilder.imageArray_length.
  - cbn [values].
    rewrite (TensorBuilder.imageArray_eq _ (Hdecoder _ _ Hread)).
    apply TensorBuilder.rgb_normalized_unit.
Qed.

Lemma detector_model_input_witness :
  Coco.detectChickens Examples.world
    {| Coco.model := Some Examples.coco_model |} "coop/hen.jpg"
  = Coco.detectChickens Examples.world
      {| Coco.model :=
           Some (λ t, if decide (length (shape t) = 3)
                      then Examples.coco_model t
                      else inl (JS.LibraryError "expected rank 3")) |}
      "coop/hen.jpg".
Proof.
  apply (detector_model_input Examples.world "coop/hen.jpg").
  - intros p b. simpl.
    destruct (String.eqb p "coop/hen.jpg"); [intros [= <-]; vm_compute; lia|].
    destruct (String.eqb p "chicken-photo.jpg"); [|done].
    intros [= <-]. cbn [Jimp.width Jimp.height Jimp.data Examples.photo].
    by rewrite length_replicate.
  - intros t (h & w & Hs & _) _. cbn beta. rewrite Hs. by rewrite decide_True.
Defined.

End TensorBounds.

(** ** More on the classifier's result *)
Module ClassifierResults.
Import Pipeline Teachable.

Lemma foldl_better_in (rest : list prediction) (acc : prediction) :
  foldl better acc rest = acc ∨ foldl better acc rest ∈ rest.
Proof.
  revert acc. induction rest as [|current rest IH]; intros acc; [by left|].
  simpl. destruct (IH (better acc current)) as [H|H].
  - rewrite H. unfold better.
    destruct (JS.gt _ _); [by left|right; by left].
  - right. by right.
Qed.

Lemma best_of_in (results : list prediction) (b : prediction) :
  best_of results = inr b → b ∈ results.
Proof.
  destruct results as [|x rest]; [done|]. intros [= <-].
  destruct (foldl_better_in rest x) as [->|H]; [by left|by right].
Qed.

Lemma pair_up_scores classes (predictionData : list float) :
  Prediction.confidence <$> pair_up classes predictionData = predictionData.
Proof.
  apply list_eq. intros i. rewrite list_lookup_fmap.
  destruct (predictionData !! i) as [s|] eqn:Hi.
  - by rewrite (TeachableFacts.pair_up_lookup _ _ _ _ Hi).
  - rewrite lookup_ge_None_2; [done|].
    rewrite TeachableFacts.pair_up_length. by apply lookup_ge_None_1.
Qed.

(** X9: in a result of the classifier the predictions carry the scores of
    the model, one for one and in order; the list is not empty, the best
    prediction is one of its entries whatever the scores are, NaN included,
    and [confidence] is the score of that entry. *)
Theorem classifier_result classes chicken W this imagePath r
    (Hrun : detectChickens classes chicken W this imagePath = inr r) :
  (∃ predict loaded,
      model this = Some predict
      ∧ read W imagePath = inr loaded
      ∧ predict (Tensor (imageArray (Jimp.resample (kernel W) loaded 224 224))
                   [1; 224; 224; 3])
        = inr (Prediction.confidence <$> predictions r))
  ∧ predictions r ≠ []
  ∧ bestPrediction r ∈ predictions r
  ∧ confidence r = Prediction.confidence (bestPrediction r).
Proof.
  apply TeachableResults.detectChickens_inr in Hrun
    as (predict & loaded & pd & best & Hm & _ & Hr & Hp & Hb & ->).
  cbn [predictions bestPrediction confidence].
  rewrite pair_up_scores. split; [by exists predict, loaded|].
  split; [|split; [by apply best_of_in|done]].
  intros E. by rewrite E in Hb.
Qed.

Lemma classifier_result_witness :
  ∃ r, detectChickens classes_en "Chicken" Examples.world
         (Examples.teachable_detector [0.152%float; 0.848%float])
         "coop/hen.jpg" = inr r
       ∧ bestPrediction r ∈ predictions r
       ∧ Prediction.confidence <$> predictions r = [0.152%float; 0.848%float].
Proof.
  assert (H : ∃ r, detectChickens classes_en "Chicken" Examples.world
                     (Examples.teachable_detector [0.152%float; 0.848%float])
                     "coop/hen.jpg" = inr r).
  { eexists. eapply TeachableResults.detectChickens_run; reflexivity. }
  destruct H as [r Hr]. exists r. split; [exact Hr|].
  destruct (classifier_result _ _ _ _ _ _ Hr)
    as ((predict & loaded & Hm & _ & Hp) & _ & Hin & _).
  split; [exact Hin|]. simpl in Hm. injection Hm as <-.
  by injection Hp as <-.
Defined.

Lemma label_en (i : nat) : label classes_en i = "Chicken" → i = 1.
Proof. destruct i as [|[|i]]; [done|done|]. unfold label. simpl. done. Qed.

Lemma label_de (i : nat) : label classes_de i = "Huhn" → i = 1.
Proof. destruct i as [|[|i]]; [done|done|]. unfold label. simpl. done. Qed.

Lemma chicken_is_second classes chicken W this imagePath r :
  (∀ i, label classes i = chicken → i = 1) →
  detectChickens classes chicken W this imagePath = inr r →
  isChicken r = true →
  ∃ s, predictions r !! 1 = Some (Prediction.Make chicken s)
       ∧ bestPrediction r = Prediction.Make chicken s
       ∧ PrimFloat.ltb 0.7%float s = true.
Proof.
  intros Hlabel Hrun Hchicken.
  apply TeachableResults.detectChickens_inr in Hrun
    as (predict & loaded & pd & best & _ & _ & _ & _ & Hb & ->).
  cbn [predictions bestPrediction isChicken] in *.
  unfold decide_chicken, JS.gt in Hchicken.
  apply andb_prop in Hchicken as [Hc Hs]. apply String.eqb_eq in Hc.
  apply best_of_in, list_elem_of_lookup in Hb as [i Hi].
  assert (Hlen : i < length pd).
  { rewrite <- (TeachableFacts.pair_up_length classes). by eapply lookup_lt_Some. }
  destruct (lookup_lt_is_Some_2 pd i Hlen) as [s Hpd].
  rewrite (TeachableFacts.pair_up_lookup _ _ _ _ Hpd) in Hi.
  injection Hi as <-. cbn [Prediction.class Prediction.confidence] in *.
  pose proof (Hlabel i Hc) as ->.
  exists s. by rewrite (TeachableFacts.pair_up_lookup _ _ _ _ Hpd), Hc.
Qed.

(** X10: in both copies of the classifier only the second output unit can
    make a chicken: when [isChicken] is true the best prediction is the
    entry at index 1, with the positive label and a score above 0.7;
    a first or a third class never counts, however high its score. *)
Theorem only_second_class_is_chicken :
  (∀ W this imagePath r,
      detectChickens classes_en "Chicken" W this imagePath = inr r →
      isChicken r = true →
      ∃ s, predictions r !! 1 = Some (Prediction.Make "Chicken" s)
           ∧ bestPrediction r = Prediction.Make "Chicken" s
           ∧ PrimFloat.ltb 0.7%float s = true)
  ∧ (∀ W this imagePath r,
      detectChickens classes_de "Huhn" W this imagePath = inr r →
      isChicken r = true →
      ∃ s, predictions r !! 1 = Some (Prediction.Make "Huhn" s)
           ∧ bestPrediction r = Prediction.Make "Huhn" s
           ∧ PrimFloat.ltb 0.7%float s = true).
Proof.
  split; intros W this imagePath r.
  - apply chicken_is_second, label_en.
  - apply chicken_is_second, label_de.
Qed.

Lemma only_second_class_is_chicken_witness :
  ∃ r, detectChickens classes_de "Huhn" Examples.world Terms.three_way
         "coop/hen.jpg" = inr r
       ∧ isChicken r = true
       ∧ ∃ s, predictions r !! 1 = Some (Prediction.Make "Huhn" s)
              ∧ bestPrediction r = Prediction.Make "Huhn" s
              ∧ PrimFloat.ltb 0.7%float s = true.
Proof.
  assert (H : ∃ r, detectChickens classes_de "Huhn" Examples.world
                     Terms.three_way "coop/hen.jpg" = inr r
                   ∧ isChicken r = true).
  { eexists. split; [eapply TeachableResults.detectChickens_run; reflexivity|].
    reflexivity. }
  destruct H as (r & Hr & Hc). exists r. split; [exact Hr|]. split; [exact Hc|].
  exact (proj2 only_second_class_is_chicken _ _ _ _ Hr Hc).
Defined.

(** A third class with the highest score is the best prediction and is not
    a chicken. *)
Example third_class_wins :
  ∃ r, detectChickens classes_en "Chicken" Examples.world
         (Examples.teachable_detector [0.01%float; 0.04%float; 0.95%float])
         "coop/hen.jpg" = inr r
       ∧ bestPrediction r = Prediction.Make "Class 2" 0.95%float
       ∧ isChicken r = false.
Proof.
  eexists. split; [eapply TeachableResults.detectChickens_run; reflexivity|].
  split; reflexivity.
Qed.

End ClassifierResults.

(** ** What [main] prints *)
Module MainRuns.
Import Pipeline.

Lemma detector_batch_lines W this (files : list string) (l : line Coco.results) :
  l ∈ fst (Coco.processMultipleImages W this files) →
  l = Processing (length files)
  ∨ (∃ n t, l = BatchSummary n t)
  ∨ ∃ p, p ∈ files
         ∧ l = match Coco.detectChickens W this p with
               | inr r => Displayed p r
               | inl e => ErrorProcessingImage e
               end.
Proof.
  rewrite Batch.processMultipleImages_eq, Batch.printed_eq. cbn [fst].
  rewrite elem_of_cons, elem_of_app, list_elem_of_fmap, list_elem_of_singleton.
  intros [->|[(p & -> & Hp)| ->]]; [by left|right; right; by exists p|].
  right; left. by do 2 eexists.
Qed.

Lemma classifier_batch_lines classes chicken W this (files : list string)
    (l : line Teachable.results) :
  l ∈ fst (Teachable.processMultipleImages classes chicken W this files) →
  l = Processing (length files)
  ∨ (∃ n t, l = BatchSummary n t)
  ∨ ∃ p, p ∈ files
         ∧ l = match Teachable.detectChickens classes chicken W this p with
               | inr r => Displayed p r
               | inl e => ErrorProcessingImage e
               end.
Proof.
  rewrite Batch.processMultipleImages_binary_eq, Batch.reported_eq. cbn [fst].
  rewrite elem_of_cons, elem_of_app, list_elem_of_fmap, list_elem_of_singleton.
  intros [->|[(p & -> & Hp)| ->]]; [by left|right; right; by exists p|].
  right; left. by do 2 eexists.
Qed.






End MainRuns.

(** ** Which images [main] reports on *)
Module Reports.
Import Pipeline.

Lemma image_file_of_listing W dir entries (p : string) :
  p ∈ join W dir <$> List.filter is_image_file entries →
  ∃ file, file ∈ entries ∧ is_image_file file = true ∧ p = join W dir file.
Proof.
  intros (file & -> & Hin)%list_elem_of_fmap.
  apply list_elem_of_In, filter_In in Hin as [Hin Himg].
  exists file. by rewrite list_elem_of_In.
Qed.

(** X13: every report [main] prints is the result of [detectChickens] on a
    path that was asked for: the argument itself when it is a file, or an
    entry of the directory whose name passes the image filter, joined to the
    directory; and only with a loaded model. *)
Theorem reports_are_of_requested_images :
  (∀ W loaded argv2 p r,
      Displayed p r ∈ Coco.main W loaded argv2 →
      ∃ m imagePath,
        loaded = inr m ∧ argv2 = Some imagePath
        ∧ Coco.detectChickens W {| Coco.model := Some m |} p = inr r
        ∧ (lstatSync W imagePath = inr false ∧ p = imagePath
           ∨ ∃ entries file,
               lstatSync W imagePath = inr true
               ∧ readdirSync W imagePath = inr entries
               ∧ file ∈ entries ∧ is_image_file file = true
               ∧ p = join W imagePath file))
  ∧ (∀ classes chicken W loaded argv2 argv3 p r,
      Displayed p r ∈ Teachable.main classes chicken W loaded argv2 argv3 →
      ∃ m imagePath,
        loaded = inr m ∧ argv2 = Some imagePath
        ∧ Teachable.detectChickens classes chicken W
            {| Teachable.model := Some m;
               Teachable.modelUrl := JS.or_else argv3 "./model/model.json" |} p
          = inr r
        ∧ (lstatSync W imagePath = inr false ∧ p = imagePath
           ∨ ∃ entries file,
               lstatSync W imagePath = inr true
               ∧ readdirSync W imagePath = inr entries
               ∧ file ∈ entries ∧ is_image_file file = true
               ∧ p = join W imagePath file)).
Proof.
  split.
  - intros W loaded argv2 p r H. unfold Coco.main in H.
    destruct loaded as [e|m]; [by apply list_elem_of_singleton in H|].
    destruct argv2 as [[|a s]|];
      [by apply list_elem_of_singleton in H| |by apply list_elem_of_singleton in H].
    exists m, (String a s). split; [done|]. split; [done|].
    cbv beta iota zeta in H.
    destruct (lstatSync W (String a s)) as [e|[|]].
    + by apply list_elem_of_singleton in H.
    + destruct (readdirSync W (String a s)) as [e|entries].
      { by apply list_elem_of_singleton in H. }
      case_decide; [by apply list_elem_of_singleton in H|].
      apply MainRuns.detector_batch_lines in H as [H|[(n & t & H)|(q & Hq & H)]];
        [done|done|].
      rewrite Directory.coco_image_files in Hq.
      apply image_file_of_listing in Hq as (file & Hin & Himg & ->).
      destruct (Coco.detectChickens _ _ (join W (String a s) file)) as [e|r']
        eqn:Hrun; [done|].
      injection H as -> ->. split; [done|]. right. by exists entries, file.
    + unfold Coco.processImage in H.
      destruct (Coco.detectChickens _ _ (String a s)) as [e|r'] eqn:Hrun.
      { by apply list_elem_of_singleton in H. }
      cbn [app] in H. apply elem_of_cons in H as [H|H].
      * injection H as -> ->. split; [done|]. by left.
      * destruct (0 <? Coco.birdDetections r');
          by apply list_elem_of_singleton in H.
  - intros classes chicken W loaded argv2 argv3 p r H.
    unfold Teachable.main in H. cbv zeta in H.
    destruct loaded as [e|m]; [by apply list_elem_of_singleton in H|].
    destruct argv2 as [[|a s]|];
      [by apply list_elem_of_singleton in H| |by apply list_elem_of_singleton in H].
    exists m, (String a s). split; [done|]. split; [done|].
    cbv beta iota zeta in H.
    destruct (lstatSync W (String a s)) as [e|[|]].
    + by apply list_elem_of_singleton in H.
    + destruct (readdirSync W (String a s)) as [e|entries].
      { by apply list_elem_of_singleton in H. }
      case_decide; [by apply list_elem_of_singleton in H|].
      apply MainRuns.classifier_batch_lines in H
        as [H|[(n & t & H)|(q & Hq & H)]]; [done|done|].
      rewrite Directory.teachable_image_files in Hq.
      apply image_file_of_listing in Hq as (file & Hin & Himg & ->).
      destruct (Teachable.detectChickens _ _ _ _ (join W (String a s) file))
        as [e|r'] eqn:Hrun; [done|].
      injection H as -> ->. split; [done|]. right. by exists entries, file.
    + unfold Teachable.processImage in H.
      destruct (Teachable.detectChickens _ _ _ _ (String a s)) as [e|r'] eqn:Hrun.
      { by apply list_elem_of_singleton in H. }
      cbn [app] in H. apply elem_of_cons in H as [H|H].
      * injection H as -> ->. split; [done|]. by left.
      * destruct (Teachable.isChicken r');
          by apply list_elem_of_singleton in H.
Qed.

Lemma reports_are_of_requested_images_witness :
  ∃ r, Displayed "coop/hen.jpg" r
         ∈ Coco.main Examples.world (inr Examples.coco_model) (Some "coop")
       ∧ ∃ entries file,
           readdirSync Examples.world "coop" = inr entries
           ∧ file ∈ entries ∧ is_image_file file = true
           ∧ "coop/hen.jpg" = join Examples.world "coop" file.
Proof.
  assert (H : ∃ r, Displayed "coop/hen.jpg" r
                     ∈ Coco.main Examples.world (inr Examples.coco_model)
                         (Some "coop")).
  { eexists.
    rewrite (Directory.coco_main_directory Examples.world Examples.coco_model
               "coop" ["hen.jpg"; "notes.txt"; "broken.PNG"]);
      [|discriminate|reflexivity|reflexivity].
    replace (List.filter is_image_file ["hen.jpg"; "notes.txt"; "broken.PNG"])
      with ["hen.jpg"; "broken.PNG"] by (vm_compute; reflexivity).
    rewrite Batch.processMultipleImages_eq, Batch.printed_eq. cbn [fst].
    right. cbn [fmap list_fmap]. rewrite CocoRun.detect_unfold. left. }
  destruct H as [r Hr]. exists r. split; [exact Hr|].
  destruct (proj1 reports_are_of_requested_images _ _ _ _ _ Hr)
    as (m & dir & _ & Hdir & _ & [[Hstat _]|(entries & file & _ & Hread & Hin & Himg & Hp)]).
  - injection Hdir as <-. discriminate Hstat.
  - injection Hdir as <-. by exists entries, file.
Defined.

End Reports.

(** ** More on the image filter and on the bird filter *)
Module Filters.
Import Pipeline.

Lemma append_assoc (s t u : string) : (s +:+ t) +:+ u = s +:+ (t +:+ u).
Proof.
  induction s as [|a s IH]; [done|].
  change (String a ((s +:+ t) +:+ u) = String a (s +:+ (t +:+ u))).
  by rewrite IH.
Qed.

Lemma length_append (s t : string) :
  String.length (s +:+ t) = String.length s + String.length t.
Proof.
  induction s as [|a s IH]; [done|].
  change (S (String.length (s +:+ t)) = S (String.length s + String.length t)).
  by rewrite IH.
Qed.

Lemma length_lower (s : string) : String.length (Spec.lower s) = String.length s.
Proof. induction s as [|a s IH]; [done|]. simpl. by rewrite IH. Qed.

Lemma to_lower_idemp (a : ascii) : Spec.to_lower (Spec.to_lower a) = Spec.to_lower a.
Proof. destruct a as [[] [] [] [] [] [] [] []]; reflexivity. Qed.

Lemma lower_idemp (s : string) : Spec.lower (Spec.lower s) = Spec.lower s.
Proof.
  induction s as [|a s IH]; [done|]. simpl. by rewrite to_lower_idemp, IH.
Qed.

(** X14: the image filter of [main] looks at the end of the name only and
    not at the case of its letters: a name it accepts is still accepted
    behind any prefix, the lower-cased name is accepted exactly when the
    name is, and no name of fewer than four characters is accepted. *)
Theorem image_filter_looks_at_the_end :
  (∀ name stem, is_image_file name = true → is_image_file (stem +:+ name) = true)
  ∧ (∀ name, is_image_file (Spec.lower name) = is_image_file name)
  ∧ (∀ name, is_image_file name = true → 4 ≤ String.length name).
Proof.
  split; [|split].
  - intros name stem (ext & stem' & Hin & Hl)%ImageFiles.is_image_file_spec.
    apply ImageFiles.is_image_file_spec.
    exists ext, (Spec.lower stem +:+ stem'). split; [done|].
    by rewrite ImageFiles.lower_app, Hl, append_assoc.
  - intros name.
    destruct (is_image_file name) eqn:E.
    + apply ImageFiles.is_image_file_spec in E as (ext & stem & Hin & Hl).
      apply ImageFiles.is_image_file_spec. exists ext, stem.
      by rewrite lower_idemp.
    + destruct (is_image_file (Spec.lower name)) eqn:E'; [|done].
      apply ImageFiles.is_image_file_spec in E' as (ext & stem & Hin & Hl).
      rewrite lower_idemp in Hl.
      assert (is_image_file name = true) as E''
        by (apply ImageFiles.is_image_file_spec; by exists ext, stem).
      congruence.
  - intros name (ext & stem & Hin & Hl)%ImageFiles.is_image_file_spec.
    rewrite <- length_lower, Hl, length_append.
    assert (4 ≤ String.length ext); [|lia].
    unfold Spec.extensions in Hin.
    repeat (apply elem_of_cons in Hin as [->|Hin]; [simpl; lia|]).
    by apply elem_of_nil in Hin.
Qed.

Lemma above_is_number (x s : float) :
  PrimFloat.ltb x s = true → PrimFloat.is_nan s = false.
Proof.
  unfold PrimFloat.is_nan.
  rewrite FloatAxioms.ltb_spec, FloatAxioms.eqb_spec. unfold SFltb, SFeqb.
  destruct (Prim2SF s) as [sg|sg| |sg m e] eqn:E.
  - by destruct (Prim2SF x).
  - destruct (Prim2SF x), sg; simpl; done.
  - destruct (Prim2SF x); simpl; done.
  - intros _. rewrite FloatOrder.SFcompare_finite.
    destruct sg; FloatOrder.lex_split; try done; lia.
Qed.

Lemma filter_all {A} (p : A → bool) (l : list A) :
  length (List.filter p l) = length l ↔ Forall (λ x, p x = true) l.
Proof.
  induction l as [|x l IH]; simpl; [by split|].
  pose proof (Arrays.filter_length p l).
  destruct (p x) eqn:E; simpl.
  - rewrite Forall_cons. split; [intros [= H']; split; [done|by apply IH]|].
    intros [_ H']. f_equal. by apply IH.
  - split; [lia|]. intros [H' _]%Forall_cons. congruence.
Qed.

Lemma filter_none {A} (p : A → bool) (l : list A) :
  length (List.filter p l) = 0 ↔ Forall (λ x, p x = false) l.
Proof.
  induction l as [|x l IH]; simpl; [by split|].
  destruct (p x) eqn:E; simpl.
  - split; [done|]. intros [H' _]%Forall_cons. congruence.
  - rewrite Forall_cons, IH. tauto.
Qed.

(** X15: the counts of the detector tell what the filter did: the bird count
    equals the total exactly when every prediction is a bird above 0.5, it
    is 0 exactly when none is; a prediction whose score is NaN is never
    kept, and filtering the kept birds again keeps them all. *)
Theorem bird_counts (predictions : list Coco.detection) (width height : nat) :
  (Coco.birdDetections (Coco.interpret predictions width height)
     = Coco.totalDetections (Coco.interpret predictions width height)
   ↔ Forall (λ p, Coco.class p = "bird"
                  ∧ PrimFloat.ltb 0.5%float (Coco.score p) = true) predictions)
  ∧ (Coco.birdDetections (Coco.interpret predictions width height) = 0
     ↔ Forall (λ p, ¬ (Coco.class p = "bird"
                       ∧ PrimFloat.ltb 0.5%float (Coco.score p) = true))
              predictions)
  ∧ Forall (λ p, PrimFloat.is_nan (Coco.score p) = false)
           (Coco.birdPredictions (Coco.interpret predictions width height))
  ∧ Coco.birdPredictions
      (Coco.interpret
         (Coco.birdPredictions (Coco.interpret predictions width height))
         width height)
    = Coco.birdPredictions (Coco.interpret predictions width height).
Proof.
  cbn [Coco.interpret Coco.birdDetections Coco.totalDetections
       Coco.birdPredictions].
  rewrite !Arrays.filter_eq.
  assert (Hb : ∀ p, Coco.is_bird p = true ↔
                    Coco.class p = "bird"
                    ∧ PrimFloat.ltb 0.5%float (Coco.score p) = true).
  { intros p. unfold Coco.is_bird, JS.gt.
    by rewrite andb_true_iff, String.eqb_eq. }
  split; [|split; [|split]].
  - rewrite filter_all. apply Forall_iff. intros p. apply Hb.
  - rewrite filter_none. apply Forall_iff. intros p.
    rewrite <- Hb. by destruct (Coco.is_bird p).
  - apply Forall_forall. intros p [_ Hp]%list_elem_of_In%filter_In.
    apply Hb in Hp as [_ Hp]. by eapply above_is_number.
  - induction predictions as [|p l IH]; [done|]. simpl.
    destruct (Coco.is_bird p) eqn:E; [|done]. simpl. by rewrite E, IH.
Qed.

End Filters.
